(** * Persistence contract of [db/models.py]

    The module declares three mapped classes ([User], [Category], [Book])
    on a common declarative [Base] whose four coroutines, [save], [delete],
    [update] and [save_or_update], drive an [AsyncSession].  The session is
    an external collaborator: the methods are embedded over an interface,
    so that every statement about which session calls a method issues, in
    which order, and what it returns or raises holds for any session
    whatsoever.  A reference session over an in-memory relational store
    then gives the statements about persisted rows something to run on;
    it follows what the library's session does with the declarations of
    the module. *)

From Stdlib Require Import ZArith Lia Ascii String.
From stdpp Require Import base gmap strings list fin_maps.

Local Open Scope Z_scope.
Local Open Scope string_scope.
Local Open Scope list_scope.

(** ** Python values, exceptions and the effect monad *)

(** Object references: a mapped instance is a heap object, and [self] is
    passed around (to the session, to [setattr]) by reference. *)
Abbreviation loc := nat.

Inductive pyval :=
| VNone
| VBool (b : bool)
| VInt (n : Z)
| VStr (s : string)
| VDateTime (t : Z)
| VRef (l : loc).

#[global] Instance pyval_eq_dec : EqDecision pyval.
Proof. solve_decision. Defined.

(** The driver-level error carried in [IntegrityError.orig].  The only
    class the module tests for is asyncpg's [UniqueViolationError]; a
    driver with classes of its own reports a [DriverError]. *)
Inductive dbapi_error :=
| UniqueViolationError
| ForeignKeyViolationError
| NotNullViolationError
| DriverError (name : string).

Inductive pyexc :=
| IntegrityError (orig : dbapi_error)
| StaleDataError
| ConnectionError
| InvalidRequestError
| AttributeError
| TypeError.

#[global] Instance dbapi_error_eq_dec : EqDecision dbapi_error.
Proof. solve_decision. Defined.
#[global] Instance pyexc_eq_dec : EqDecision pyexc.
Proof. solve_decision. Defined.

(** [isinstance(exception.orig, UniqueViolationError)] *)
Definition isinstance_UniqueViolationError (orig : dbapi_error) : bool :=
  match orig with
  | UniqueViolationError => true
  | _ => false
  end.

(** What the session carries in [orig] for a violated constraint: the
    error of the DBAPI adapter it talks through, which is a class of the
    adapter's own whatever the driver underneath.  The kind of the
    violation is in its message only. *)
Definition not_null_failed : dbapi_error := DriverError "NOT NULL constraint failed".
Definition unique_failed : dbapi_error := DriverError "UNIQUE constraint failed".
Definition foreign_key_failed : dbapi_error :=
  DriverError "FOREIGN KEY constraint failed".

(** A coroutine either returns a value or raises; whatever it did to the
    world before raising stays done. *)
Inductive outcome (A : Type) :=
| Return (a : A)
| Raise (e : pyexc).
Arguments Return {A} a.
Arguments Raise {A} e.

Definition M (W A : Type) : Type := W → outcome A * W.

Definition ret {W A} (a : A) : M W A := λ w, (Return a, w).

Definition raise {W A} (e : pyexc) : M W A := λ w, (Raise e, w).

Definition bind {W A B} (c : M W A) (k : A → M W B) : M W B :=
  λ w, match c w with
       | (Return a, w') => k a w'
       | (Raise e, w') => (Raise e, w')
       end.

(** [try: body except ...: handler].  [handler e = None] means no
    [except] clause matches [e], which then keeps propagating. *)
Definition try_except {W A} (body : M W A) (handler : pyexc → option (M W A))
  : M W A :=
  λ w, match body w with
       | (Return a, w') => (Return a, w')
       | (Raise e, w') =>
           match handler e with
           | Some h => h w'
           | None => (Raise e, w')
           end
       end.

(** [try: body finally: fin].  The cleanup runs on every exit; the pending
    return value or exception survives it unless the cleanup itself
    raises. *)
Definition try_finally {W A B} (body : M W A) (fin : M W B) : M W A :=
  λ w, match body w with
       | (o, w') =>
           match fin w' with
           | (Return _, w'') => (o, w'')
           | (Raise e, w'') => (Raise e, w'')
           end
       end.

Declare Scope py_scope.
Delimit Scope py_scope with py.
Notation "x <- c ;; k" := (bind c (λ x, k))
  (at level 100, c at next level, right associativity) : py_scope.
Notation "c ;; k" := (bind c (λ _, k))
  (at level 100, right associativity) : py_scope.
Local Open Scope py_scope.

(** ** The session interface

    What the methods of [Base] ask of their environment: the
    [AsyncSession] calls, and attribute assignment on a mapped instance
    (which, on an instrumented class, is the library's business too).
    [db_rollback] is part of the session although no method calls it. *)
Class AsyncSession (W : Type) := {
  db_add : loc → M W pyval;
  db_delete : loc → M W pyval;
  db_commit : M W pyval;
  db_rollback : M W pyval;
  db_merge : loc → M W pyval;
  db_close : M W pyval;
  setattr : loc → string → pyval → M W pyval;
}.

(** ** class Base *)

Module Base.
Section Methods.
Context {W : Type} {Sess : AsyncSession W}.

(** [db_session.add(self); return await db_session.commit()] *)
Definition save (self : loc) : M W pyval :=
  db_add self ;;
  db_commit.

(** [await db_session.delete(self); await db_session.commit(); return True] *)
Definition delete (self : loc) : M W pyval :=
  db_delete self ;;
  db_commit ;;
  ret (VBool true).

(** [for k, v in kwargs.items(): setattr(self, k, v)] *)
Fixpoint update_loop (self : loc) (kwargs : list (string * pyval)) : M W unit :=
  match kwargs with
  | [] => ret tt
  | (k, v) :: rest => setattr self k v ;; update_loop self rest
  end.

(** [for ...: setattr(self, k, v); return await db.commit()] *)
Definition update (self : loc) (kwargs : list (string * pyval)) : M W pyval :=
  update_loop self kwargs ;;
  db_commit.

(** [[
    try:
        db.add(self)
        return await db.commit()
    except IntegrityError as exception:
        if isinstance(exception.orig, UniqueViolationError):
            return await db.merge(self)
    finally:
        await db.close()
    ]]
    An [IntegrityError] whose [orig] is not a [UniqueViolationError]
    leaves the [except] block by falling off its end, so the function
    returns [None]. *)
Definition save_or_update (self : loc) : M W pyval :=
  try_finally
    (try_except
       (db_add self ;;
        db_commit)
       (λ exception,
          match exception with
          | IntegrityError orig =>
              Some (if isinstance_UniqueViolationError orig
                    then db_merge self
                    else ret VNone)
          | _ => None
          end))
    db_close.
End Methods.
End Base.



(** ** Observing the session calls

    Any session can be wrapped so that it records which calls reach it;
    the record is what the statements about call order are made on. *)
Inductive call :=
| CAdd (l : loc)
| CDelete (l : loc)
| CCommit
| CRollback
| CMerge (l : loc)
| CClose
| CSetattr (l : loc) (k : string) (v : pyval).

#[global] Instance call_eq_dec : EqDecision call.
Proof. solve_decision. Defined.

Definition traced {W A} (c : call) (op : M W A) : M (W * list call) A :=
  λ wt, match op wt.1 with
        | (o, w') => (o, (w', wt.2 ++ [c]))
        end.

#[global] Instance Traced {W} {Sess : AsyncSession W} : AsyncSession (W * list call) := {|
  db_add l := traced (CAdd l) (db_add l);
  db_delete l := traced (CDelete l) (db_delete l);
  db_commit := traced CCommit db_commit;
  db_rollback := traced CRollback db_rollback;
  db_merge l := traced (CMerge l) (db_merge l);
  db_close := traced CClose db_close;
  setattr l k v := traced (CSetattr l k v) (setattr l k v);
|}.

(** ** The mapped classes *)

Inductive model := User | Category | Book.

#[global] Instance model_eq_dec : EqDecision model.
Proof. solve_decision. Defined.

Definition all_models : list model := [User; Category; Book].

Definition __name__ (cls : model) : string :=
  match cls with
  | User => "User"
  | Category => "Category"
  | Book => "Book"
  end.

(** [str.lower] on the ASCII range. *)
Definition lower_char (c : ascii) : ascii :=
  let n := Ascii.nat_of_ascii c in
  if ((65 <=? n) && (n <=? 90))%nat then Ascii.ascii_of_nat (n + 32) else c.

Fixpoint lower (s : string) : string :=
  match s with
  | EmptyString => EmptyString
  | String c rest => String (lower_char c) (lower rest)
  end.

(** [return self.__name__.lower() + 's'] *)
Definition __tablename__ (cls : model) : string :=
  lower (__name__ cls) +:+ "s".

Inductive sqltype :=
| TString (length : option nat)
| TInteger
| TDateTime
| TBoolean
| TEnum (values : list string).

Inductive column_default :=
| NoDefault
| Scalar (v : pyval)
| UtcNow.

Inductive ondelete := NoAction | Cascade.

Record foreign_key := ForeignKey {
  fk_table : string;
  fk_column : string;
  fk_ondelete : ondelete;
}.

Record column := Column {
  col_type : sqltype;
  col_primary_key : bool;
  col_unique : bool;
  col_nullable : bool;
  col_default : column_default;
  col_onupdate : column_default;
  col_foreign_key : option foreign_key;
}.

(** A plain [mapped_column(type)] under a [Mapped[T]] annotation:
    [nullable] is whether [T] is [Optional]. *)
Definition mapped_column (ty : sqltype) (nullable : bool) : column :=
  Column ty false false nullable NoDefault NoDefault None.

(** The keyword arguments of [mapped_column] the module uses. *)
Definition with_primary_key (c : column) : column :=
  Column (col_type c) true (col_unique c) false
         (col_default c) (col_onupdate c) (col_foreign_key c).

Definition with_unique (c : column) : column :=
  Column (col_type c) (col_primary_key c) true (col_nullable c)
         (col_default c) (col_onupdate c) (col_foreign_key c).

Definition with_default (d : column_default) (c : column) : column :=
  Column (col_type c) (col_primary_key c) (col_unique c) (col_nullable c)
         d (col_onupdate c) (col_foreign_key c).

Definition with_onupdate (d : column_default) (c : column) : column :=
  Column (col_type c) (col_primary_key c) (col_unique c) (col_nullable c)
         (col_default c) d (col_foreign_key c).

Definition with_foreign_key (fk : foreign_key) (c : column) : column :=
  Column (col_type c) (col_primary_key c) (col_unique c) (col_nullable c)
         (col_default c) (col_onupdate c) (Some fk).

(** What a name in a class body is bound to. *)
Inductive member :=
| MappedColumn (c : column)
| Relationship (target back_populates : string)
| ClassAttribute (value : sqltype).

(** [VolEnum], with [values_callable] taking each member's value. *)
Definition VolEnum : list string := ["hard"; "soft"].

(** The class bodies, name by name.  [category_id] carries no [Mapped]
    annotation and is nullable; [photo] is bound to [sqlalchemy.String(55)],
    not to a [mapped_column]. *)
Definition class_body (cls : model) : list (string * member) :=
  match cls with
  | User =>
      [ ("id", MappedColumn (with_primary_key (mapped_column TInteger false)));
        ("chat_id",
         MappedColumn (with_unique (mapped_column (TString (Some 30%nat)) false)));
        ("fullname", MappedColumn (mapped_column (TString None) true));
        ("lang", MappedColumn (mapped_column (TString (Some 20%nat)) false));
        ("created_at",
         MappedColumn (with_default UtcNow (mapped_column TDateTime false)));
        ("updated_at",
         MappedColumn (with_onupdate UtcNow
                         (with_default UtcNow (mapped_column TDateTime false))));
        ("is_admin",
         MappedColumn (with_default (Scalar (VBool false))
                         (mapped_column TBoolean false)));
        ("phone_number", MappedColumn (mapped_column (TString (Some 20%nat)) false)) ]
  | Category =>
      [ ("id", MappedColumn (with_primary_key (mapped_column TInteger false)));
        ("name", MappedColumn (mapped_column (TString (Some 55%nat)) false));
        ("books", Relationship "Book" "category") ]
  | Book =>
      [ ("id", MappedColumn (with_primary_key (mapped_column TInteger false)));
        ("title", MappedColumn (mapped_column (TString (Some 255%nat)) false));
        ("author", MappedColumn (mapped_column (TString (Some 255%nat)) false));
        ("vol",
         MappedColumn (with_default (Scalar (VStr "soft"))
                         (mapped_column (TEnum VolEnum) false)));
        ("amount", MappedColumn (mapped_column TInteger false));
        ("category_id",
         MappedColumn (with_foreign_key (ForeignKey "categorys" "id" Cascade)
                         (mapped_column TInteger true)));
        ("category", Relationship "Category" "books");
        ("photo", ClassAttribute (TString (Some 55%nat))) ]
  end.

(** The table of a class has one column per name bound to a
    [mapped_column] construct (or left as a bare [Mapped[...]] annotation,
    as [fullname] is).  A name bound to anything else stays an ordinary
    class attribute: [photo] is bound to the type object [String(55)]
    itself. *)
Definition columns (cls : model) : list (string * column) :=
  omap (λ nm, match nm.2 with
              | MappedColumn c => Some (nm.1, c)
              | _ => None
              end) (class_body cls).

Definition colmap (cls : model) : gmap string column :=
  list_to_map (columns cls).

Definition model_of_table (name : string) : option model :=
  List.find (λ cls, bool_decide (__tablename__ cls = name)) all_models.

(** ** The relational store

    The store behind the session is an external collaborator.  Rows live
    in one table per class; the store enforces the NOT NULL, primary key
    and [unique=True] constraints the class bodies declare, and a
    violation reaches the caller as an [IntegrityError] carrying the
    adapter's error.  Foreign keys, with their [ondelete] rule, are
    enforced by some engines and not by others: the engine the module
    creates (line 12) is SQLite, which does not enforce them unless asked
    to on each connection, and the module never asks.  String lengths,
    enum membership and the range of integers are dialect matters and are
    not modelled. *)

Abbreviation row := (gmap string pyval).

(** Modelled from the spec: the persisted state layout (section 6), three
    tables, which the module leaves to the engine it is bound to. *)
Record database := Database {
  users : list row;
  categorys : list row;
  books : list row;
  foreign_keys : bool;   (* whether the engine enforces foreign keys *)
}.

Definition table (d : database) (cls : model) : list row :=
  match cls with
  | User => users d
  | Category => categorys d
  | Book => books d
  end.

Definition set_table (d : database) (cls : model) (t : list row) : database :=
  match cls with
  | User => Database t (categorys d) (books d) (foreign_keys d)
  | Category => Database (users d) t (books d) (foreign_keys d)
  | Book => Database (users d) (categorys d) t (foreign_keys d)
  end.

(** The part of an instance's attributes the unit of work looks at: the
    ones that name a column of its table. *)
Definition column_state (cls : model) (attrs : gmap string pyval) : row :=
  map_imap (λ name _, attrs !! name) (colmap cls).

Definition default_value (now : Z) (d : column_default) : pyval :=
  match d with
  | NoDefault => VNone
  | Scalar v => v
  | UtcNow => VDateTime now
  end.

Definition next_id (name : string) (t : list row) : Z :=
  1 + foldr (λ r acc, match r !! name with
                      | Some (VInt n) => Z.max n acc
                      | _ => acc
                      end) 0 t.

(** The value an INSERT stores in a column: what the instance carries,
    or, when that is missing or [None], a generated key for a primary key
    and the declared default otherwise. *)
Definition insert_value (now : Z) (t : list row) (name : string) (c : column)
    (given : option pyval) : pyval :=
  let v := default VNone given in
  if decide (v = VNone)
  then if col_primary_key c then VInt (next_id name t)
       else default_value now (col_default c)
  else v.

Definition new_row (now : Z) (cls : model) (t : list row) (st : row) : row :=
  map_imap (λ name c, Some (insert_value now t name c (st !! name))) (colmap cls).

Definition is_null (r : row) (name : string) : bool :=
  bool_decide (default VNone (r !! name) = VNone).

Definition not_null_ok (cls : model) (r : row) : bool :=
  forallb (λ nc, col_nullable nc.2 || negb (is_null r nc.1)) (columns cls).

Definition same_at (name : string) (r1 r2 : row) : bool :=
  negb (is_null r1 name) && bool_decide (r1 !! name = r2 !! name).

Definition unique_ok (cls : model) (t : list row) (r : row) : bool :=
  forallb (λ nc, negb (col_primary_key nc.2 || col_unique nc.2)
                 || negb (existsb (same_at nc.1 r) t)) (columns cls).

Definition fk_ok (d : database) (cls : model) (r : row) : bool :=
  forallb (λ nc, match col_foreign_key nc.2 with
                 | None => true
                 | Some fk =>
                     is_null r nc.1
                     || match model_of_table (fk_table fk) with
                        | Some target =>
                            existsb (λ r', bool_decide (r' !! fk_column fk = r !! nc.1))
                                    (table d target)
                        | None => false
                        end
                 end) (columns cls).

(** Modelled from the spec: the store's constraint system (section 5),
    to which all conflict detection is delegated.  The first constraint a
    row violates against the rows [t] of its own table, if any; a foreign
    key counts where the engine enforces foreign keys. *)
Definition check_row (d : database) (cls : model) (t : list row) (r : row)
  : option pyexc :=
  if negb (not_null_ok cls r) then Some (IntegrityError not_null_failed)
  else if negb (unique_ok cls t r) then Some (IntegrityError unique_failed)
  else if foreign_keys d && negb (fk_ok d cls r)
       then Some (IntegrityError foreign_key_failed)
  else None.

(** Modelled from the spec: the INSERT a flush issues for a pending
    instance; the store assigns the identity. *)
Definition insert_row (now : Z) (cls : model) (st : row) (d : database)
  : pyexc + (database * row) :=
  let t := table d cls in
  let r := new_row now cls t st in
  match check_row d cls t r with
  | Some e => inl e
  | None => inr (set_table d cls (t ++ [r]), r)
  end.

Definition has_id (k : pyval) (r : row) : bool :=
  bool_decide (r !! "id" = Some k).

(** [onupdate]: a column the UPDATE does not itself change takes its
    [onupdate] value. *)
Definition touch (now : Z) (cls : model) (old r : row) : row :=
  map_imap (λ name v,
              Some match colmap cls !! name with
                   | Some c =>
                       match col_onupdate c with
                       | NoDefault => v
                       | upd => if bool_decide (old !! name = Some v)
                                then default_value now upd else v
                       end
                   | None => v
                   end) r.

(** Modelled from the spec: the UPDATE a flush issues for a persistent
    instance, of the row whose identity is [k] to the instance's column
    state.  Nothing is written when that state is what the row holds; a
    row that is no longer there is a [StaleDataError]: the UPDATE matched
    no row where the session expected one. *)
Definition update_row (now : Z) (cls : model) (k : pyval) (st : row) (d : database)
  : pyexc + (database * row) :=
  let t := table d cls in
  match List.find (has_id k) t with
  | None => inl StaleDataError
  | Some old =>
      let r := st ∪ old in
      if decide (r = old) then inr (d, old)
      else
        let r' := touch now cls old r in
        match check_row d cls (List.filter (λ x, negb (has_id k x)) t) r' with
        | Some e => inl e
        | None => inr (set_table d cls (map (λ x, if has_id k x then r' else x) t), r')
        end
  end.

(** The foreign keys that point at the table of [cls]. *)
Definition referrers (cls : model) : list (model * string * foreign_key) :=
  flat_map (λ m,
    flat_map (λ nc, match col_foreign_key nc.2 with
                    | Some fk => if bool_decide (fk_table fk = __tablename__ cls)
                                 then [(m, nc.1, fk)] else []
                    | None => []
                    end) (columns m)) all_models.

Definition refers_to (name : string) (fk : foreign_key) (gone : list row) (r : row)
  : bool :=
  negb (is_null r name)
  && existsb (λ g, bool_decide (g !! fk_column fk = r !! name)) gone.

(** Modelled from the spec: the store's native cascading foreign key
    (section 4.2), where the engine enforces foreign keys.  The
    [ondelete] rules fired by the removal of the rows [gone] of [cls];
    cascades nest at most as deep as there are tables. *)
Fixpoint on_delete (fuel : nat) (cls : model) (gone : list row) (d : database)
  : pyexc + database :=
  match fuel with
  | O => inr d
  | S fuel' =>
      foldl (λ acc ref,
               match acc with
               | inl e => inl e
               | inr d' =>
                   let '(m, name, fk) := ref in
                   match List.filter (refers_to name fk gone) (table d' m) with
                   | [] => inr d'
                   | hit =>
                       match fk_ondelete fk with
                       | Cascade =>
                           on_delete fuel' m hit
                             (set_table d' m
                                (List.filter (λ r, negb (refers_to name fk gone r))
                                             (table d' m)))
                       | NoAction => inl (IntegrityError foreign_key_failed)
                       end
                   end
               end) (inr d) (referrers cls)
  end.

(** The DELETE a flush issues for an instance marked for deletion.  A
    row that is no longer there is no error: the session warns that the
    statement matched nothing and goes on.  The [ondelete] rules fire
    where the engine enforces foreign keys, and nowhere else. *)
Definition delete_row (cls : model) (k : pyval) (d : database) : pyexc + database :=
  let t := table d cls in
  match List.filter (has_id k) t with
  | [] => inr d
  | gone =>
      let d' := set_table d cls (List.filter (λ r, negb (has_id k r)) t) in
      if foreign_keys d then on_delete (length all_models) cls gone d'
      else inr d'
  end.

(** The relationships of [cls] whose other end holds the foreign key:
    for [Category.books], the column [Book.category_id]. *)
Definition dependents (cls : model) : list (model * string) :=
  flat_map (λ nm, match nm.2 with
                  | Relationship target _ =>
                      omap (λ ref, if bool_decide (__name__ ref.1.1 = target)
                                   then Some (ref.1.1, ref.1.2) else None)
                           (referrers cls)
                  | _ => []
                  end) (class_body cls).

(** The first row that holds [k] in column [name] gets [NULL] there. *)
Fixpoint null_first (name : string) (k : pyval) (t : list row) : list row :=
  match t with
  | [] => []
  | r :: rest =>
      if bool_decide (r !! name = Some k) then <[name := VNone]> r :: rest
      else r :: null_first name k rest
  end.

(** What the unit of work does for the relationships of an instance it
    deletes.  Neither relationship of the module is declared with a
    delete cascade or with [passive_deletes], so the flush loads what the
    relationship refers to and takes it off the departing instance by
    setting its foreign key to [NULL], before the DELETE.  Both
    relationships are annotated as scalars ([Mapped['Book']], line 67):
    the load yields one instance, the first row that refers to the
    parent. *)
Definition disassociate (cls : model) (k : pyval) (d : database) : database :=
  foldl (λ d' mn, set_table d' mn.1 (null_first mn.2 k (table d' mn.1)))
        d (dependents cls).

(** ** The reference session

    The unit of work the contract is handed.  It holds references to the
    instances attached to it, pending ones in [new] and persistent ones
    in [identity_map], marks for deletion in [deleted]; [commit] flushes
    them against a working copy of the store that replaces the store only
    if every statement went through. *)

Record pyobj := PyObj {
  cls : model;
  key : option pyval;          (* identity of the row it stands for *)
  attrs : gmap string pyval;   (* the instance's __dict__ *)
}.

(** Modelled from the spec: the session/transaction provider (section 6)
    with the store it is bound to, and the heap of instances it has
    references into. *)
Record world := World {
  heap : gmap loc pyobj;
  new : list loc;
  identity_map : list loc;
  deleted : list loc;
  db : database;
  utcnow : Z;
}.

(** What a flush reads of the heap. *)
Definition snapshot_of (h : gmap loc pyobj)
  : gmap loc (model * option pyval * gmap string pyval) :=
  (λ o, (cls o, key o, column_state (cls o) (attrs o))) <$> h.

Section Flush.
Variable now : Z.
Variable snap : gmap loc (model * option pyval * gmap string pyval).

Definition flush_insert (acc : pyexc + (database * list (loc * row))) (l : loc)
  : pyexc + (database * list (loc * row)) :=
  match acc with
  | inl e => inl e
  | inr (d, written) =>
      match snap !! l with
      | Some (c, _, st) =>
          match insert_row now c st d with
          | inl e => inl e
          | inr (d', r) => inr (d', written ++ [(l, r)])
          end
      | None => inr (d, written)
      end
  end.

Definition flush_update (gone : list loc)
    (acc : pyexc + (database * list (loc * row))) (l : loc)
  : pyexc + (database * list (loc * row)) :=
  match acc with
  | inl e => inl e
  | inr (d, written) =>
      if bool_decide (l ∈ gone) then inr (d, written)
      else
        match snap !! l with
        | Some (c, Some k, st) =>
            match update_row now c k st d with
            | inl e => inl e
            | inr (d', r) => inr (d', written ++ [(l, r)])
            end
        | _ => inr (d, written)
        end
  end.

Definition flush_delete (acc : pyexc + (database * list (loc * row))) (l : loc)
  : pyexc + (database * list (loc * row)) :=
  match acc with
  | inl e => inl e
  | inr (d, written) =>
      match snap !! l with
      | Some (c, Some k, _) =>
          match delete_row c k (disassociate c k d) with
          | inl e => inl e
          | inr d' => inr (d', written)
          end
      | _ => inr (d, written)
      end
  end.

(** The flush of a unit of work: INSERTs, then UPDATEs, then DELETEs,
    stopping at the first statement the store refuses. *)
Definition flush (pending persistent gone : list loc) (d : database)
  : pyexc + (database * list (loc * row)) :=
  foldl flush_delete
    (foldl (flush_update gone)
       (foldl flush_insert (inr (d, [])) pending)
       persistent)
    gone.
End Flush.

(** The session factory of the module (line 13) leaves
    [expire_on_commit] at its default: when a transaction ends, the
    column attributes of every instance the session holds are expired,
    that is, taken out of the instance's [__dict__] until they are read
    again from the store.  Other entries of the [__dict__] stay. *)
Definition expire (o : pyobj) : pyobj :=
  PyObj (cls o) (key o)
        (filter (λ kv, ¬ is_Some (colmap (cls o) !! kv.1)) (attrs o)).

(** After a commit an instance stands for the row written for it, under
    the identity of that row, its column attributes expired. *)
Definition persist (r : row) (o : pyobj) : pyobj :=
  expire (PyObj (cls o) (r !! "id") (attrs o)).

Definition refresh (written : list (loc * row)) (h : gmap loc pyobj)
  : gmap loc pyobj :=
  foldl (λ h' lr, alter (persist lr.2) lr.1 h') h written.

Definition detach (o : pyobj) : pyobj := PyObj (cls o) None (attrs o).

Definition expunge (gone : list loc) (h : gmap loc pyobj) : gmap loc pyobj :=
  foldl (λ h' l, alter detach l h') h gone.

Definition attached (w : world) (l : loc) : bool :=
  bool_decide (l ∈ new w ++ identity_map w).

(** Modelled from the spec: [add] registers an instance with the
    session (section 4.1), as pending if it stands for no row yet. *)
Definition ref_add (self : loc) : M world pyval := λ w,
  if attached w self then (Return VNone, w)
  else
    match heap w !! self with
    | Some o =>
        match key o with
        | None =>
            (Return VNone,
             World (heap w) (new w ++ [self]) (identity_map w) (deleted w) (db w) (utcnow w))
        | Some _ =>
            (Return VNone,
             World (heap w) (new w) (identity_map w ++ [self]) (deleted w) (db w) (utcnow w))
        end
    | None => (Return VNone, w)
    end.

(** Modelled from the spec: [delete] marks an instance for deletion;
    only one that stands for a row can be marked. *)
Definition ref_delete (self : loc) : M world pyval := λ w,
  match heap w !! self with
  | Some o =>
      match key o with
      | Some _ =>
          (Return VNone,
           World (heap w) (new w)
                 (if bool_decide (self ∈ identity_map w) then identity_map w
                  else identity_map w ++ [self])
                 (if bool_decide (self ∈ deleted w) then deleted w
                  else deleted w ++ [self])
                 (db w) (utcnow w))
      | None => (Raise InvalidRequestError, w)
      end
  | None => (Raise InvalidRequestError, w)
  end.

(** [rollback] (section 6).  Pending instances and deletion marks are
    dropped, and what stays attached is expired. *)
Definition ref_rollback : M world pyval := λ w,
  (Return VNone,
   World (foldl (λ h l, alter expire l h) (heap w) (identity_map w))
         [] (identity_map w) [] (db w) (utcnow w)).

(** [commit] (section 6) applies the unit of work atomically.  A failed
    flush writes nothing, and the session rolls its transaction back
    before it raises the error of the flush. *)
Definition ref_commit : M world pyval := λ w,
  match flush (utcnow w) (snapshot_of (heap w))
              (new w) (identity_map w) (deleted w) (db w) with
  | inl e => (Raise e, (ref_rollback w).2)
  | inr (d, written) =>
      (Return VNone,
       World (expunge (deleted w) (refresh written (heap w)))
             []
             (List.filter (λ l, bool_decide (l ∉ deleted w)) (identity_map w ++ new w))
             []
             d (utcnow w))
  end.

(** [close] (section 6) releases whatever the session holds.  Everything
    is detached; uncommitted work is lost. *)
Definition ref_close : M world pyval := λ w,
  (Return VNone, World (heap w) [] [] [] (db w) (utcnow w)).

(** The column values an instance carries. *)
Definition explicitly_set (c : model) (a : gmap string pyval) : row :=
  filter (λ kv, kv.2 ≠ VNone) (column_state c a).

(** The row [r] holds what [st] holds in a primary-key or unique
    column. *)
Definition conflicts (c : model) (st r : row) : bool :=
  existsb (λ nc, (col_primary_key nc.2 || col_unique nc.2) && same_at nc.1 st r)
          (columns c).

(** [merge(entity)] looks for the row under the primary key the given
    instance carries.  It hands back a new instance, attached to the
    session: one that stands for that row overlaid with the fields the
    given instance sets, or, failing such a row (as for every instance
    that carries no primary key), a pending copy.  Nothing is written
    before the next commit. *)
Definition ref_merge (self : loc) : M world pyval := λ w,
  match heap w !! self with
  | Some o =>
      let st := explicitly_set (cls o) (attrs o) in
      let l := fresh (dom (heap w)) in
      match (if decide (default VNone (attrs o !! "id") = VNone) then None
             else List.find (has_id (default VNone (attrs o !! "id")))
                            (table (db w) (cls o))) with
      | Some r =>
          (Return (VRef l),
           World (<[l := PyObj (cls o) (r !! "id") (st ∪ r)]> (heap w))
                 (new w) (identity_map w ++ [l]) (deleted w) (db w) (utcnow w))
      | None =>
          (Return (VRef l),
           World (<[l := PyObj (cls o) None (attrs o)]> (heap w))
                 (new w ++ [l]) (identity_map w) (deleted w) (db w) (utcnow w))
      end
  | None => (Raise InvalidRequestError, w)
  end.

(** [awaitable_attrs] is a property of [AsyncAttrs] (line 16) without a
    setter. *)
Definition read_only (k : string) : bool := bool_decide (k = "awaitable_attrs").

Definition is_relationship (c : model) (k : string) : bool :=
  existsb (λ nm, bool_decide (nm.1 = k)
                 && match nm.2 with
                    | Relationship _ _ => true
                    | _ => false
                    end) (class_body c).

(** What a relationship attribute takes: a mapped instance, or [None]. *)
Definition is_instance (v : pyval) : bool :=
  match v with
  | VRef _ | VNone => true
  | _ => false
  end.

Definition settable (c : model) (k : string) (v : pyval) : bool :=
  negb (read_only k) && (negb (is_relationship c k) || is_instance v).

(** [setattr(self, k, v)]: an entry of the instance's [__dict__],
    whatever [k] is, unless the class refuses the assignment: a read-only
    attribute, or a relationship given something that is no instance,
    raises [AttributeError].  Only a flush tells columns from other
    names.  Names that begin with an underscore belong to the interpreter
    and to the instrumentation; no statement is made about them. *)
Definition ref_setattr (self : loc) (k : string) (v : pyval) : M world pyval := λ w,
  if match heap w !! self with
     | Some o => settable (cls o) k v
     | None => negb (read_only k)
     end
  then (Return VNone,
        World (alter (λ o, PyObj (cls o) (key o) (<[k := v]> (attrs o))) self (heap w))
              (new w) (identity_map w) (deleted w) (db w) (utcnow w))
  else (Raise AttributeError, w).

(** The session the statements about stored rows are made on. *)
#[global] Instance RefSession : AsyncSession world := {|
  db_add := ref_add;
  db_delete := ref_delete;
  db_commit := ref_commit;
  db_rollback := ref_rollback;
  db_merge := ref_merge;
  db_close := ref_close;
  setattr := ref_setattr;
|}.

(** ** Runs and what is read off them *)

Definition result {W A} (r : outcome A * W) : outcome A := r.1.

Definition calls {W A} (r : outcome A * (W * list call)) : list call := r.2.2.

Definition final {W A} (r : outcome A * (W * list call)) : W := r.2.1.

(** The rows a run leaves in the store. *)
Definition stored {A} (r : outcome A * world) : database := db r.2.

Definition returns {A} (o : outcome A) : Prop :=
  match o with
  | Return _ => True
  | Raise _ => False
  end.

(** ** Vocabulary of the statements *)

(** A session nothing is attached to, as a caller gets it from the
    session factory. *)
Definition fresh_session (w : world) : Prop :=
  new w = [] ∧ identity_map w = [] ∧ deleted w = [].

(** A session holding [self], loaded, and nothing else. *)
Definition holds_only (w : world) (self : loc) : Prop :=
  new w = [] ∧ identity_map w = [self] ∧ deleted w = [].

Definition with_heap (w : world) (h : gmap loc pyobj) : world :=
  World h (new w) (identity_map w) (deleted w) (db w) (utcnow w).

(** The instance after [setattr(self, k, v)] for each item in turn. *)
Definition assign (kwargs : list (string * pyval)) (o : pyobj) : pyobj :=
  PyObj (cls o) (key o) (foldl (λ a kv, <[kv.1 := kv.2]> a) (attrs o) kwargs).



(** ** A session that cannot reach its store

    Every call fails with [ConnectionError]; there is nothing else to
    it. *)
#[global] Instance Unreachable : AsyncSession unit := {|
  db_add _ := raise ConnectionError;
  db_delete _ := raise ConnectionError;
  db_commit := raise ConnectionError;
  db_rollback := raise ConnectionError;
  db_merge _ := raise ConnectionError;
  db_close := raise ConnectionError;
  setattr _ _ _ := raise ConnectionError;
|}.

(** ** Sample worlds *)

(** [Base.metadata.create_all], as [async_main] runs it on the engine of
    the module: one empty table per class, foreign keys not enforced. *)
Definition create_all : database := Database [] [] [] false.

(** The same rows on an engine that does not enforce foreign keys, as
    the engine of the module. *)
Definition unenforced (d : database) : database :=
  Database (users d) (categorys d) (books d) false.

Definition fresh_world (h : gmap loc pyobj) (d : database) : world :=
  World h [] [] [] d 1000.

(** The User of the spec's example: [chat_id] "123", no name yet. *)
Definition first_user_row : row :=
  {[ "id" := VInt 1; "chat_id" := VStr "123"; "fullname" := VNone;
     "lang" := VStr "en"; "created_at" := VDateTime 500;
     "updated_at" := VDateTime 500; "is_admin" := VBool false;
     "phone_number" := VStr "+1000" ]}.

(** A new User under the same [chat_id], with a name. *)
Definition jane : pyobj :=
  PyObj User None
    {[ "chat_id" := VStr "123"; "fullname" := VStr "Jane";
       "lang" := VStr "en"; "phone_number" := VStr "+2000" ]}.

Definition fiction_row : row :=
  {[ "id" := VInt 10; "name" := VStr "Fiction" ]}.

(** A Book whose [category_id] names no Category. *)
Definition orphan_book : pyobj :=
  PyObj Book None
    {[ "title" := VStr "X"; "author" := VStr "A"; "amount" := VInt 3;
       "category_id" := VInt 99 ]}.


Definition photo_book : pyobj :=
  PyObj Book None
    {[ "title" := VStr "X"; "author" := VStr "A"; "amount" := VInt 1;
       "category_id" := VInt 10; "photo" := VStr "x.jpg" ]}.

Definition bob_row : row :=
  {[ "id" := VInt 2; "chat_id" := VStr "456"; "fullname" := VNone;
     "lang" := VStr "en"; "created_at" := VDateTime 600;
     "updated_at" := VDateTime 600; "is_admin" := VBool false;
     "phone_number" := VStr "+3000" ]}.

(** Bob, as loaded from [bob_row]. *)
Definition bob : pyobj := PyObj User (Some (VInt 2)) bob_row.

Definition two_users : database := Database [first_user_row; bob_row] [] [] false.

(** A session that has loaded Bob from a store that also holds the first
    user. *)
Definition bob_loaded : world :=
  World {[ 0%nat := bob ]} [] [0%nat] [] two_users 1000.

(** One Category, on an engine that enforces foreign keys. *)
Definition with_fiction : database := Database [] [fiction_row] [] true.

Definition book_row : row :=
  {[ "id" := VInt 7; "title" := VStr "X"; "author" := VStr "A";
     "vol" := VStr "soft"; "amount" := VInt 3; "category_id" := VInt 10 ]}.

Definition with_book : database := Database [] [fiction_row] [book_row] true.


Definition library : database :=
  Database []
    [ fiction_row; {[ "id" := VInt 11; "name" := VStr "Poetry" ]} ]
    [ book_row;
      {[ "id" := VInt 8; "title" := VStr "Y"; "author" := VStr "B";
         "vol" := VStr "hard"; "amount" := VInt 1; "category_id" := VInt 10 ]};
      {[ "id" := VInt 9; "title" := VStr "Z"; "author" := VStr "C";
         "vol" := VStr "soft"; "amount" := VInt 2; "category_id" := VInt 11 ]} ]
    true.

(** A session that has loaded the Category of [fiction_row]. *)
Definition fiction_loaded : world :=
  World {[ 0%nat := PyObj Category (Some (VInt 10)) fiction_row ]} [] [0%nat] []
        library 1000.

Definition one_user : database := Database [first_user_row] [] [] false.

(** A User under a [chat_id] nobody has, and without a phone number. *)
Definition phoneless : pyobj :=
  PyObj User None {[ "chat_id" := VStr "999"; "lang" := VStr "en" ]}.


(** ** Further vocabulary *)


(** The value the instance carries under [k], [None] if it carries
    none. *)
Definition given (a : gmap string pyval) (k : string) : pyval :=
  default VNone (a !! k).

(** A new User nobody shares a [chat_id] with. *)
Definition ali : pyobj :=
  PyObj User None
    {[ "chat_id" := VStr "777"; "lang" := VStr "uz"; "phone_number" := VStr "+998" ]}.




(** The same session on the engine of the module, which does not enforce
    foreign keys. *)
Definition on_module_engine (w : world) : world :=
  World (heap w) (new w) (identity_map w) (deleted w) (unenforced (db w)) (utcnow w).

(** An error that does not pass the test of line 45. *)
Definition fails_isinstance (e : pyexc) : Prop :=
  ∀ orig, e = IntegrityError orig → isinstance_UniqueViolationError orig = false.





(** A session that has loaded the Category of [fiction_row] and holds a
    pending User without a phone number. *)
Definition fiction_and_phoneless : world :=
  World {[ 0%nat := PyObj Category (Some (VInt 10)) fiction_row; 1%nat := phoneless ]}
        [1%nat] [0%nat] [] library 1000.

(** ** A session whose connection drops at [close]

    [add] and [commit] go through, counted in the state; [close] fails
    with [ConnectionError]. *)
#[global] Instance Dropping : AsyncSession nat := {|
  db_add _ := λ n, (Return VNone, S n);
  db_delete _ := λ n, (Return VNone, S n);
  db_commit := λ n, (Return VNone, S n);
  db_rollback := λ n, (Return VNone, S n);
  db_merge l := λ n, (Return (VRef l), S n);
  db_close := raise ConnectionError;
  setattr _ _ _ := λ n, (Return VNone, S n);
|}.

(** The [try]/[except] part of [save_or_update], without its [finally]
    clause. *)
Definition save_or_update_attempt {W : Type} {Sess : AsyncSession W} (self : loc)
  : M W pyval :=
  try_except
    (db_add self ;;
     db_commit)
    (λ exception,
       match exception with
       | IntegrityError orig =>
           Some (if isinstance_UniqueViolationError orig
                 then db_merge self
                 else ret VNone)
       | _ => None
       end).


(** * The methods over any session *)

Ltac unfold_run :=
  unfold calls, final, result, Base.save, Base.delete, Base.update,
    Base.save_or_update, try_finally, try_except, bind, ret, raise;
  cbn [db_add db_delete db_commit db_rollback db_merge db_close setattr Traced];
  unfold traced; cbn [fst snd].

Ltac not_among :=
  let Hin := fresh "Hin" in
  intros Hin;
  repeat (apply elem_of_cons in Hin as [?|Hin]; [done|]);
  by apply elem_of_nil in Hin.

Section AnySession.
Context {W : Type} {Sess : AsyncSession W}.

(** Running a method on a traced session is running it on the session
    underneath, with the calls noted on the side. *)
Lemma save_traced (self : loc) (w : W) (tr : list call) :
  result (Base.save self (w, tr)) = result (Base.save self w)
  ∧ final (Base.save self (w, tr)) = (Base.save self w).2.
Proof.
  unfold_run.
  destruct (db_add self w) as [[a|e] w1]; cbn; [|done].
  destruct (db_commit w1) as [[b|e] w2]; done.
Qed.

Lemma delete_traced (self : loc) (w : W) (tr : list call) :
  result (Base.delete self (w, tr)) = result (Base.delete self w)
  ∧ final (Base.delete self (w, tr)) = (Base.delete self w).2.
Proof.
  unfold_run.
  destruct (db_delete self w) as [[a|e] w1]; cbn; [|done].
  by destruct (db_commit w1) as [[b|e] w2].
Qed.



Lemma save_or_update_traced (self : loc) (w : W) (tr : list call) :
  result (Base.save_or_update self (w, tr)) = result (Base.save_or_update self w)
  ∧ final (Base.save_or_update self (w, tr)) = (Base.save_or_update self w).2.
Proof.
  unfold_run.
  destruct (db_add self w) as [[a|e] w1]; cbn.
  - destruct (db_commit w1) as [[b|e] w2]; cbn.
    + by destruct (db_close w2) as [[c|e] w3].
    + destruct e as [orig| | | | |]; cbn;
        try by destruct (db_close w2) as [[c|e] w3].
      destruct (isinstance_UniqueViolationError orig); cbn.
      * destruct (db_merge self w2) as [[m|e] w3]; cbn;
          by destruct (db_close w3) as [[c|e'] w4].
      * by destruct (db_close w2) as [[c|e] w3].
  - destruct e as [orig| | | | |]; cbn;
      try by destruct (db_close w1) as [[c|e] w2].
    destruct (isinstance_UniqueViolationError orig); cbn.
    + destruct (db_merge self w1) as [[m|e] w2]; cbn;
        by destruct (db_close w2) as [[c|e'] w3].
    + by destruct (db_close w1) as [[c|e] w2].
Qed.


(** What [commit] answers is what [save] answers. *)
Lemma save_result (self : loc) (w w1 : W) (a : pyval) :
  db_add self w = (Return a, w1) →
  Base.save self w = db_commit w1.
Proof.
  intros Hadd. unfold Base.save, bind. rewrite Hadd.
  by destruct (db_commit w1) as [[b|e] w2].
Qed.

(** A failure of [add] is the failure of [save]. *)
Lemma save_add_fails (self : loc) (w w1 : W) (e : pyexc) :
  db_add self w = (Raise e, w1) →
  Base.save self w = (Raise e, w1).
Proof. intros Hadd. unfold Base.save, bind. by rewrite Hadd. Qed.


(** [delete] is [delete] then [commit], and nothing else. *)
Lemma delete_calls (self : loc) (w : W) (tr : list call) :
  calls (Base.delete self (w, tr)) = tr ++ [CDelete self; CCommit]
  ∨ (calls (Base.delete self (w, tr)) = tr ++ [CDelete self]
     ∧ ¬ returns (result (db_delete self w))).
Proof.
  unfold_run.
  destruct (db_delete self w) as [[a|e] w1]; cbn.
  - left. destruct (db_commit w1) as [[b|e] w2]; cbn; by rewrite <- app_assoc.
  - right. split; [done | tauto].
Qed.







(** [save_or_update] calls [close] last, on every path: after [add]
    or [commit] went through or failed, after [merge]. *)
Lemma save_or_update_calls (self : loc) (w : W) (tr : list call) :
  ∃ pre, calls (Base.save_or_update self (w, tr)) = tr ++ pre ++ [CClose]
         ∧ pre ∈ [ [CAdd self]; [CAdd self; CMerge self];
                   [CAdd self; CCommit];
                   [CAdd self; CCommit; CMerge self] ].
Proof.
  unfold_run.
  destruct (db_add self w) as [[a|e] w1]; cbn.
  - destruct (db_commit w1) as [[b|e] w2]; cbn.
    + exists [CAdd self; CCommit].
      destruct (db_close w2) as [[c|e] w3]; cbn;
        (split; [by rewrite <- !app_assoc | set_solver]).
    + destruct e as [orig| | | | |]; cbn;
        try (exists [CAdd self; CCommit];
             destruct (db_close w2) as [[c|e] w3]; cbn;
             (split; [by rewrite <- !app_assoc | set_solver])).
      destruct (isinstance_UniqueViolationError orig); cbn.
      * exists [CAdd self; CCommit; CMerge self].
        destruct (db_merge self w2) as [[m|e] w3]; cbn;
          destruct (db_close w3) as [[c|e'] w4]; cbn;
          (split; [by rewrite <- !app_assoc | set_solver]).
      * exists [CAdd self; CCommit].
        destruct (db_close w2) as [[c|e] w3]; cbn;
          (split; [by rewrite <- !app_assoc | set_solver]).
  - destruct e as [orig| | | | |]; cbn;
      try (exists [CAdd self];
           destruct (db_close w1) as [[c|e] w2]; cbn;
           (split; [by rewrite <- !app_assoc | set_solver])).
    destruct (isinstance_UniqueViolationError orig); cbn.
    + exists [CAdd self; CMerge self].
      destruct (db_merge self w1) as [[m|e] w2]; cbn;
        destruct (db_close w2) as [[c|e'] w3]; cbn;
        (split; [by rewrite <- !app_assoc | set_solver]).
    + exists [CAdd self].
      destruct (db_close w1) as [[c|e] w2]; cbn;
        (split; [by rewrite <- !app_assoc | set_solver]).
Qed.


(** On a uniqueness violation the calls are [add], [commit], [merge],
    [close]: what [merge] hands back is returned, and no [commit]
    follows it. *)
Lemma save_or_update_conflict (self : loc) (w w1 w2 w3 w4 : W) (a m c : pyval)
    (orig : dbapi_error) (tr : list call) :
  db_add self w = (Return a, w1) →
  db_commit w1 = (Raise (IntegrityError orig), w2) →
  isinstance_UniqueViolationError orig = true →
  db_merge self w2 = (Return m, w3) →
  db_close w3 = (Return c, w4) →
  Base.save_or_update self (w, tr)
  = (Return m, (w4, tr ++ [CAdd self; CCommit; CMerge self; CClose])).
Proof.
  intros Hadd Hcommit Horig Hmerge Hclose. unfold_run.
  rewrite Hadd. cbn. rewrite Hcommit. cbn. rewrite Horig. cbn.
  rewrite Hmerge. cbn. rewrite Hclose. cbn. by rewrite <- !app_assoc.
Qed.

(** Any other [IntegrityError] ends in the [except] block too, which
    does nothing with it: [None] is returned, and [merge] is not
    called. *)
Lemma save_or_update_swallows (self : loc) (w w1 w2 w3 : W) (a c : pyval)
    (orig : dbapi_error) (tr : list call) :
  db_add self w = (Return a, w1) →
  db_commit w1 = (Raise (IntegrityError orig), w2) →
  isinstance_UniqueViolationError orig = false →
  db_close w2 = (Return c, w3) →
  Base.save self w = (Raise (IntegrityError orig), w2)
  ∧ Base.save_or_update self (w, tr)
    = (Return VNone, (w3, tr ++ [CAdd self; CCommit; CClose])).
Proof.
  intros Hadd Hcommit Horig Hclose. split.
  - unfold Base.save, bind. by rewrite Hadd, Hcommit.
  - unfold_run. rewrite Hadd. cbn. rewrite Hcommit. cbn. rewrite Horig. cbn.
    rewrite Hclose. cbn. by rewrite <- !app_assoc.
Qed.

(** A failure that is not an [IntegrityError] goes to the caller as it
    is, once the session is closed. *)
Lemma save_or_update_propagates (self : loc) (w w1 w2 w3 : W) (a c : pyval)
    (e : pyexc) :
  db_add self w = (Return a, w1) →
  db_commit w1 = (Raise e, w2) →
  (∀ orig, e ≠ IntegrityError orig) →
  db_close w2 = (Return c, w3) →
  Base.save self w = (Raise e, w2)
  ∧ Base.save_or_update self w = (Raise e, w3).
Proof.
  intros Hadd Hcommit He Hclose.
  unfold Base.save, Base.save_or_update, try_finally, try_except, bind.
  rewrite Hadd, Hcommit.
  destruct e as [orig| | | | |]; [by destruct (He orig) | ..]; by rewrite Hclose.
Qed.

End AnySession.

(** * The store *)

Lemma filter_none {A} (f : A → bool) (l : list A) :
  List.filter f l = [] → List.filter (λ x, negb (f x)) l = l.
Proof.
  induction l as [|x l IH]; [done|]. cbn.
  destruct (f x); [done|]. cbn. intros Hl. by rewrite IH.
Qed.


Lemma table_set_table (d : database) (c : model) (t : list row) :
  table (set_table d c t) c = t.
Proof. by destruct c. Qed.

Lemma colmap_id (c : model) :
  colmap c !! "id" = Some (with_primary_key (mapped_column TInteger false)).
Proof. by destruct c. Qed.

Lemma columns_Book :
  columns Book
  = [ ("id", with_primary_key (mapped_column TInteger false));
      ("title", mapped_column (TString (Some 255%nat)) false);
      ("author", mapped_column (TString (Some 255%nat)) false);
      ("vol", with_default (Scalar (VStr "soft")) (mapped_column (TEnum VolEnum) false));
      ("amount", mapped_column TInteger false);
      ("category_id", with_foreign_key (ForeignKey "categorys" "id" Cascade)
                        (mapped_column TInteger true)) ].
Proof. reflexivity. Qed.



(** * Properties of the store and of the reference session *)
Lemma column_state_lookup (c : model) (a : gmap string pyval) (k : string) :
  column_state c a !! k = match colmap c !! k with
                          | Some _ => a !! k
                          | None => None
                          end.
Proof. unfold column_state. rewrite map_lookup_imap. by destruct (colmap c !! k). Qed.

Lemma new_row_lookup (now : Z) (c : model) (t : list row) (st : row) (k : string) :
  new_row now c t st !! k
  = (λ col, insert_value now t k col (st !! k)) <$> colmap c !! k.
Proof. unfold new_row. rewrite map_lookup_imap. by destruct (colmap c !! k). Qed.

Lemma insert_value_given (now : Z) (t : list row) (k : string) (col : column)
    (x : pyval) :
  x ≠ VNone → insert_value now t k col (Some x) = x.
Proof. intros Hx. unfold insert_value. cbn. by destruct (decide (x = VNone)). Qed.

Lemma insert_value_key (now : Z) (t : list row) (k : string) (col : column)
    (given : option pyval) :
  col_primary_key col = true → insert_value now t k col given ≠ VNone.
Proof.
  intros Hpk. unfold insert_value. rewrite Hpk.
  by destruct (decide (default VNone given = VNone)).
Qed.

(** An INSERT stores what the instance carries, under a key that is
    never [None]. *)
Lemma insert_row_spec (now : Z) (c : model) (a : gmap string pyval)
    (d d' : database) (r : row) :
  insert_row now c (column_state c a) d = inr (d', r) →
  d' = set_table d c (table d c ++ [r])
  ∧ (∃ i, r !! "id" = Some i ∧ i ≠ VNone)
  ∧ (∀ k x, a !! k = Some x → x ≠ VNone → (r ∪ a) !! k = Some x)
  ∧ (∀ k, colmap c !! k = None → r !! k = None).
Proof.
  unfold insert_row. intros Hins.
  destruct (check_row _ _ _ _); [done|]. injection Hins as <- <-.
  split; [done|]. split; [|split].
  - rewrite new_row_lookup, colmap_id. cbn. eexists. split; [done|].
    by apply insert_value_key.
  - intros k x Hk Hx. rewrite lookup_union, new_row_lookup, column_state_lookup.
    destruct (colmap c !! k) as [col|]; cbn.
    + by rewrite Hk, insert_value_given.
    + by rewrite Hk.
  - intros k Hk. by rewrite new_row_lookup, Hk.
Qed.







(** An expired instance carries no column state. *)
Lemma column_state_expire (o : pyobj) :
  column_state (cls o) (attrs (expire o)) = ∅.
Proof.
  apply map_eq. intros k. rewrite column_state_lookup, lookup_empty.
  destruct (colmap (cls o) !! k) as [col|] eqn:Hcol; [|done].
  unfold expire. cbn [attrs cls]. apply map_lookup_filter_None. right.
  intros x _ Hno. cbn in Hno. apply Hno. by rewrite Hcol.
Qed.

Lemma table_set_table_ne (d : database) (c c' : model) (t : list row) :
  c' ≠ c → table (set_table d c t) c' = table d c'.
Proof. by destruct c, c'. Qed.


Lemma set_table_table (d : database) (c : model) : set_table d c (table d c) = d.
Proof. by destruct c, d. Qed.

Lemma referrers_none (c : model) : c ≠ Category → referrers c = [].
Proof. by destruct c. Qed.

(** Only a Category has instances of another class hanging on it. *)
Lemma disassociate_plain (c : model) (i : pyval) (d : database) :
  c ≠ Category → disassociate c i d = d.
Proof. by destruct c. Qed.

(** DELETE of a User or of a Book: the rows under the identity go, and
    nothing else does, on any engine. *)
Lemma delete_row_plain (c : model) (i : pyval) (d : database) :
  c ≠ Category →
  delete_row c i d
  = inr (set_table d c (List.filter (λ r, negb (has_id i r)) (table d c))).
Proof.
  intros Hc. unfold delete_row.
  destruct (List.filter (has_id i) (table d c)) as [|g gone] eqn:Hgone.
  - by rewrite (filter_none _ _ Hgone), set_table_table.
  - destruct (foreign_keys d); [|done].
    change (length all_models) with 3%nat. cbn [on_delete].
    by rewrite (referrers_none c Hc).
Qed.

(** * The methods on the reference session *)

Lemma snapshot_of_lookup (h : gmap loc pyobj) (l : loc) (o : pyobj) :
  h !! l = Some o →
  snapshot_of h !! l = Some (cls o, key o, column_state (cls o) (attrs o)).
Proof. intros Hl. unfold snapshot_of. by rewrite lookup_fmap, Hl. Qed.

Lemma ref_add_stored (self : loc) (w : world) : stored (ref_add self w) = db w.
Proof.
  unfold stored, ref_add. destruct (attached w self); [done|].
  destruct (heap w !! self) as [o|]; [|done]. by destruct (key o).
Qed.

Lemma ref_add_returns (self : loc) (w : world) :
  ∃ w1, ref_add self w = (Return VNone, w1) ∧ db w1 = db w.
Proof.
  pose proof (ref_add_stored self w) as Hdb. unfold stored in Hdb.
  unfold ref_add in *. destruct (attached w self); [by eexists|].
  destruct (heap w !! self) as [o|]; [|by eexists].
  destruct (key o); by eexists.
Qed.


(** [save] of a new instance on a fresh session is one INSERT. *)
Lemma save_fresh (self : loc) (o : pyobj) (w : world) :
  fresh_session w → heap w !! self = Some o → key o = None →
  Base.save self w
  = match insert_row (utcnow w) (cls o) (column_state (cls o) (attrs o)) (db w) with
    | inl e => (Raise e, World (heap w) [] [] [] (db w) (utcnow w))
    | inr (d, r) =>
        (Return VNone,
         World (alter (persist r) self (heap w)) [] [self] [] d (utcnow w))
    end.
Proof.
  intros (Hnew & Hid & Hdel) Hself Hkey.
  unfold Base.save, bind. cbn [db_add db_commit RefSession].
  unfold ref_add, attached. rewrite Hnew, Hid, Hself, Hkey.
  cbn [app bool_decide decide_rel]. rewrite bool_decide_false by apply not_elem_of_nil.
  unfold ref_commit, flush. cbn [new identity_map deleted heap db utcnow].
  rewrite Hdel. cbn [foldl app flush_insert flush_update flush_delete].
  rewrite (snapshot_of_lookup _ _ _ Hself).
  destruct (insert_row _ _ _ _) as [e|[d r]]; [done|].
  cbn [foldl app expunge refresh List.filter fst snd].
  rewrite bool_decide_true by apply not_elem_of_nil. done.
Qed.




Lemma ref_merge_stored (self : loc) (w : world) : stored (ref_merge self w) = db w.
Proof.
  unfold stored, ref_merge. destruct (heap w !! self) as [o|]; [|done].
  by destruct (if decide _ then _ else _).
Qed.

(** On the reference session [save_or_update] leaves in the store what
    [save] leaves there, on every path: what [merge] prepares is never
    written. *)
Lemma save_or_update_stores_as_save (self : loc) (w : world) :
  stored (Base.save_or_update self w) = stored (Base.save self w).
Proof.
  destruct (ref_add_returns self w) as (w1 & Hadd & _).
  rewrite (save_result (Sess := RefSession) self w w1 VNone Hadd).
  unfold Base.save_or_update, try_finally, try_except, bind, ret, stored.
  cbn [db_add db_commit db_merge db_close RefSession]. rewrite Hadd.
  destruct (ref_commit w1) as [[b|e] w2] eqn:Hcommit; cbn; [done|].
  destruct e as [orig| | | | |]; cbn; try done.
  destruct (isinstance_UniqueViolationError orig); cbn; [|done].
  pose proof (ref_merge_stored self w2) as Hmerge. unfold stored in Hmerge.
  by destruct (ref_merge self w2) as [[m|e] w3].
Qed.


(** The loop of [update] on the reference session: the assignments go
    through, in order, up to the first one the class refuses, and only
    the instance changes. *)
Lemma update_loop_ref_cases (self : loc) (o : pyobj)
    (kwargs : list (string * pyval)) (w : world) :
  heap w !! self = Some o →
  if forallb (λ kv, settable (cls o) kv.1 kv.2) kwargs
  then Base.update_loop self kwargs w
       = (Return tt, with_heap w (alter (assign kwargs) self (heap w)))
  else ∃ h, Base.update_loop self kwargs w
            = (Raise AttributeError, with_heap w h).
Proof.
  revert w o. induction kwargs as [|[k v] rest IH]; intros w o Hself.
  - cbn. unfold ret. f_equal. destruct w as [h n i dl d t]. unfold with_heap. cbn.
    f_equal. symmetry. apply alter_id. by intros [].
  - cbn [Base.update_loop forallb fst snd]. unfold bind. cbn [setattr RefSession].
    unfold ref_setattr. rewrite Hself.
    destruct (settable (cls o) k v); cbn [andb].
    + set (w1 := World _ _ _ _ _ _).
      assert (Hself1 : heap w1 !! self
                       = Some (PyObj (cls o) (key o) (<[k := v]> (attrs o)))).
      { unfold w1. cbn [heap]. by rewrite lookup_alter_eq, Hself. }
      specialize (IH w1 _ Hself1). cbn [cls] in IH.
      destruct (forallb _ rest).
      * rewrite IH. unfold w1, with_heap. cbn.
        do 2 f_equal. rewrite alter_alter_eq. apply alter_ext. by intros [].
      * destruct IH as [h ->]. exists h. by destruct w.
    + exists (heap w). by destruct w.
Qed.

Lemma update_loop_ref (self : loc) (o : pyobj) (kwargs : list (string * pyval))
    (w : world) :
  heap w !! self = Some o →
  forallb (λ kv, settable (cls o) kv.1 kv.2) kwargs = true →
  Base.update_loop self kwargs w
  = (Return tt, with_heap w (alter (assign kwargs) self (heap w))).
Proof.
  intros Hself Hall. pose proof (update_loop_ref_cases self o kwargs w Hself) as H.
  by rewrite Hall in H.
Qed.

Lemma update_ref (self : loc) (o : pyobj) (kwargs : list (string * pyval))
    (w : world) :
  heap w !! self = Some o →
  forallb (λ kv, settable (cls o) kv.1 kv.2) kwargs = true →
  Base.update self kwargs w
  = ref_commit (with_heap w (alter (assign kwargs) self (heap w))).
Proof.
  intros Hself Hall. unfold Base.update, bind.
  rewrite (update_loop_ref self o kwargs w Hself Hall). cbn [db_commit RefSession].
  by destruct (ref_commit _) as [[b|e] w'].
Qed.






(** [update] on a session that holds only the instance is one UPDATE. *)
Lemma update_holds_only_eq (self : loc) (o : pyobj) (k : pyval)
    (kwargs : list (string * pyval)) (w : world) :
  holds_only w self → heap w !! self = Some o → key o = Some k →
  forallb (λ kv, settable (cls o) kv.1 kv.2) kwargs = true →
  Base.update self kwargs w
  = match update_row (utcnow w) (cls o) k
            (column_state (cls o) (attrs (assign kwargs o))) (db w) with
    | inl e =>
        (Raise e,
         World (alter expire self (alter (assign kwargs) self (heap w)))
               [] [self] [] (db w) (utcnow w))
    | inr (d, r) =>
        (Return VNone,
         World (alter (persist r) self (alter (assign kwargs) self (heap w)))
               [] [self] [] d (utcnow w))
    end.
Proof.
  intros (Hnew & Hid & Hdel) Hself Hkey Hall.
  rewrite (update_ref self o kwargs w Hself Hall).
  unfold ref_commit, ref_rollback, flush, with_heap.
  cbn [heap new identity_map deleted db utcnow snd]. rewrite Hnew, Hid, Hdel.
  cbn [foldl flush_insert flush_update flush_delete].
  rewrite bool_decide_false by apply not_elem_of_nil.
  erewrite snapshot_of_lookup by (by rewrite lookup_alter_eq, Hself).
  cbn [assign cls key attrs]. rewrite Hkey.
  destruct (update_row _ _ _ _ _) as [e|[d r]]; [done|].
  cbn [app refresh expunge foldl fst snd List.filter].
  rewrite bool_decide_true by apply not_elem_of_nil. done.
Qed.


(** [delete] on a session that holds only the instance is one DELETE,
    after what hangs on the instance has been taken off it. *)
Lemma delete_holds_only (self : loc) (o : pyobj) (i : pyval) (w : world) :
  holds_only w self → heap w !! self = Some o → key o = Some i →
  Base.delete self w
  = match delete_row (cls o) i (disassociate (cls o) i (db w)) with
    | inl e =>
        (Raise e, World (alter expire self (heap w)) [] [self] [] (db w) (utcnow w))
    | inr d =>
        (Return (VBool true),
         World (alter detach self (heap w)) [] [] [] d (utcnow w))
    end.
Proof.
  intros (Hnew & Hid & Hdel) Hself Hkey.
  unfold Base.delete, bind, ret. cbn [db_delete db_commit RefSession].
  unfold ref_delete. rewrite Hself, Hkey, Hnew, Hid, Hdel.
  rewrite bool_decide_true by apply list_elem_of_singleton, eq_refl.
  rewrite bool_decide_false by apply not_elem_of_nil.
  unfold ref_commit, ref_rollback, flush.
  cbn [heap new identity_map deleted db utcnow app snd].
  cbn [foldl flush_insert flush_update flush_delete].
  rewrite bool_decide_true by apply list_elem_of_singleton, eq_refl.
  unfold flush_delete.
  rewrite (snapshot_of_lookup _ _ _ Hself), Hkey.
  destruct (delete_row _ _ _) as [e|d]; [done|].
  cbn [refresh expunge foldl app List.filter].
  rewrite bool_decide_false; [done|].
  intros Hnot. apply Hnot, list_elem_of_singleton, eq_refl.
Qed.

(** * What the reference session can raise *)

Lemma foldl_inl_invariant {A B} (P : pyexc → Prop)
    (f : pyexc + A → B → pyexc + A) (l : list B) (acc : pyexc + A) :
  (∀ acc x e, (∀ e', acc = inl e' → P e') → f acc x = inl e → P e) →
  (∀ e, acc = inl e → P e) →
  ∀ e, foldl f acc l = inl e → P e.
Proof.
  intros Hstep. revert acc. induction l as [|x l IH]; intros acc Hacc e.
  - apply Hacc.
  - cbn. apply IH. intros e'. by apply (Hstep acc x e').
Qed.

Lemma check_row_fails_isinstance (d : database) (c : model) (t : list row) (r : row)
    (e : pyexc) :
  check_row d c t r = Some e → fails_isinstance e.
Proof.
  unfold check_row. intros Hcheck orig ->.
  destruct (negb (not_null_ok c r)); [by injection Hcheck as <-|].
  destruct (negb (unique_ok c t r)); [by injection Hcheck as <-|].
  destruct (foreign_keys d && negb (fk_ok d c r)); [by injection Hcheck as <-|].
  discriminate.
Qed.

Lemma insert_row_fails_isinstance (now : Z) (c : model) (st : row) (d : database)
    (e : pyexc) :
  insert_row now c st d = inl e → fails_isinstance e.
Proof.
  unfold insert_row.
  destruct (check_row _ _ _ _) as [e'|] eqn:Hcheck; [|done].
  intros [= <-]. by eapply check_row_fails_isinstance.
Qed.

Lemma update_row_fails_isinstance (now : Z) (c : model) (k : pyval) (st : row)
    (d : database) (e : pyexc) :
  update_row now c k st d = inl e → fails_isinstance e.
Proof.
  unfold update_row.
  destruct (List.find (has_id k) (table d c)) as [old|]; [|by intros [= <-] orig].
  destruct (decide (st ∪ old = old)) as [Heq|Hne]; [done|].
  destruct (check_row _ _ _ _) as [e'|] eqn:Hcheck; [|done].
  intros [= <-]. by eapply check_row_fails_isinstance.
Qed.

Lemma on_delete_fails_isinstance (fuel : nat) (c : model) (gone : list row)
    (d : database) (e : pyexc) :
  on_delete fuel c gone d = inl e → fails_isinstance e.
Proof.
  revert c gone d e. induction fuel as [|fuel IH]; intros c gone d e; [done|].
  cbn [on_delete]. apply foldl_inl_invariant; [|done].
  intros acc [[m name] fk] e' Hacc.
  destruct acc as [e0|d']; [by intros [= <-]; apply Hacc|].
  destruct (List.filter _ _) as [|b hit]; [done|].
  destruct (fk_ondelete fk); [by intros [= <-] orig [= <-]|]. apply IH.
Qed.

Lemma delete_row_fails_isinstance (c : model) (k : pyval) (d : database)
    (e : pyexc) :
  delete_row c k d = inl e → fails_isinstance e.
Proof.
  unfold delete_row. destruct (List.filter _ _) as [|g gone]; [done|].
  destruct (foreign_keys d); [|done]. apply on_delete_fails_isinstance.
Qed.

Lemma flush_fails_isinstance (now : Z)
    (snap : gmap loc (model * option pyval * gmap string pyval))
    (pending persistent gone : list loc) (d : database) (e : pyexc) :
  flush now snap pending persistent gone d = inl e → fails_isinstance e.
Proof.
  unfold flush. apply foldl_inl_invariant.
  { intros acc l e' Hacc. unfold flush_delete.
    destruct acc as [e0|[d' written]]; [by intros [= <-]; apply Hacc|].
    destruct (snap !! l) as [[[c [k|]] st]|]; try done.
    destruct (delete_row _ _ _) as [e1|d1] eqn:Hdel; [|done].
    intros [= <-]. by eapply delete_row_fails_isinstance. }
  apply foldl_inl_invariant.
  { intros acc l e' Hacc. unfold flush_update.
    destruct acc as [e0|[d' written]]; [by intros [= <-]; apply Hacc|].
    destruct (bool_decide (l ∈ gone)); [done|].
    destruct (snap !! l) as [[[c [k|]] st]|]; try done.
    destruct (update_row _ _ _ _ _) as [e1|[d1 r1]] eqn:Hupd; [|done].
    intros [= <-]. by eapply update_row_fails_isinstance. }
  apply foldl_inl_invariant; [|done].
  intros acc l e' Hacc. unfold flush_insert.
  destruct acc as [e0|[d' written]]; [by intros [= <-]; apply Hacc|].
  destruct (snap !! l) as [[[c k] st]|]; [|done].
  destruct (insert_row _ _ _ _) as [e1|[d1 r1]] eqn:Hins; [|done].
  intros [= <-]. by eapply insert_row_fails_isinstance.
Qed.

(** Whatever [commit] raises on the reference session fails the test of
    line 45. *)
Lemma ref_commit_fails_isinstance (w w' : world) (e : pyexc) :
  ref_commit w = (Raise e, w') → fails_isinstance e.
Proof.
  unfold ref_commit.
  destruct (flush _ _ _ _ _ _) as [e'|[d written]] eqn:Hflush; [|done].
  intros [= <- _]. by eapply flush_fails_isinstance.
Qed.

Section NoMerge.
Context {W : Type} {Sess : AsyncSession W}.

(** Where neither [add] nor [commit] raises an error that passes the
    test of line 45, [save_or_update] does not get to [merge]. *)
Lemma save_or_update_no_merge (self : loc) (w : W) (tr : list call) :
  (∀ w1 e, db_add self w = (Raise e, w1) → fails_isinstance e) →
  (∀ a w1 w2 e, db_add self w = (Return a, w1) →
                db_commit w1 = (Raise e, w2) → fails_isinstance e) →
  calls (Base.save_or_update self (w, tr)) = tr ++ [CAdd self; CClose]
  ∨ calls (Base.save_or_update self (w, tr)) = tr ++ [CAdd self; CCommit; CClose].
Proof.
  intros Hadd Hcommit. unfold_run.
  destruct (db_add self w) as [[a|e] w1] eqn:Ha; cbn.
  - right. destruct (db_commit w1) as [[b|e] w2] eqn:Hc; cbn.
    + destruct (db_close w2) as [[c|e] w3]; cbn; by rewrite <- !app_assoc.
    + pose proof (Hcommit a w1 w2 e eq_refl Hc) as He.
      destruct e as [orig| | | | |]; cbn;
        try (destruct (db_close w2) as [[c|e] w3]; cbn; by rewrite <- !app_assoc).
      rewrite (He orig eq_refl). cbn.
      destruct (db_close w2) as [[c|e] w3]; cbn; by rewrite <- !app_assoc.
  - left. pose proof (Hadd w1 e eq_refl) as He.
    destruct e as [orig| | | | |]; cbn;
      try (destruct (db_close w1) as [[c|e] w2]; cbn; by rewrite <- !app_assoc).
    rewrite (He orig eq_refl). cbn.
    destruct (db_close w1) as [[c|e] w2]; cbn; by rewrite <- !app_assoc.
Qed.
End NoMerge.


(** * The amount of a Book *)






(** * Names the class defines nothing under *)





(** * The statements of the specification, on the code *)

(** C1, on the code. [save_or_update] merges nothing and commits no
    merge.  On any session its calls are one of four lists, in none of
    which a [commit] follows [merge].  On the reference session, as on
    every session of the library, a violated constraint is reported
    through the adapter's error, which is no asyncpg
    [UniqueViolationError]: the test of line 45 fails and [merge] is
    never called.  So for the User upserted under the [chat_id] of the
    stored row: [save] raises the uniqueness violation; [save_or_update]
    calls [add], [commit] and [close], and returns [None]; the stored row
    is the old one, its [fullname] still [None] and its [phone_number]
    the old one. *)
Theorem save_or_update_conflict_is_not_merged :
  (∀ (W : Type) (Sess : AsyncSession W) (self : loc) (w : W),
     calls (Base.save_or_update self (w, []))
     ∈ [ [CAdd self; CClose]; [CAdd self; CMerge self; CClose];
         [CAdd self; CCommit; CClose];
         [CAdd self; CCommit; CMerge self; CClose] ])
  ∧ (∀ (self : loc) (w : world),
       CMerge self ∉ calls (Base.save_or_update self (w, [])))
  ∧ (∀ (self : loc) (w : world),
       stored (Base.save_or_update self w) = stored (Base.save self w))
  ∧ result (Base.save 0%nat (fresh_world {[ 0%nat := jane ]} one_user))
    = Raise (IntegrityError unique_failed)
  ∧ isinstance_UniqueViolationError unique_failed = false
  ∧ result (Base.save_or_update 0%nat (fresh_world {[ 0%nat := jane ]} one_user, []))
    = Return VNone
  ∧ calls (Base.save_or_update 0%nat (fresh_world {[ 0%nat := jane ]} one_user, []))
    = [CAdd 0%nat; CCommit; CClose]
  ∧ attrs jane !! "fullname" = Some (VStr "Jane")
  ∧ stored (Base.save_or_update 0%nat (fresh_world {[ 0%nat := jane ]} one_user))
    = one_user
  ∧ (λ r : row, (r !! "chat_id", r !! "fullname", r !! "phone_number"))
      <$> users one_user
    = [(Some (VStr "123"), Some VNone, Some (VStr "+1000"))].
Proof.
  split.
  { intros W Sess self w.
    destruct (save_or_update_calls self w []) as (pre & -> & Hpre). cbn [app].
    repeat (apply elem_of_cons in Hpre as [->|Hpre];
            [cbn [app]; repeat first [apply list_elem_of_here
                                     | apply list_elem_of_further]|]).
    by apply elem_of_nil in Hpre. }
  split.
  { intros self w.
    destruct (save_or_update_no_merge (Sess := RefSession) self w []) as [-> | ->].
    - intros w1 e. destruct (ref_add_returns self w) as (w2 & Hadd & _).
      cbn [db_add RefSession]. by rewrite Hadd.
    - intros a w1 w2 e _. apply ref_commit_fails_isinstance.
    - not_among.
    - not_among. }
  split; [apply save_or_update_stores_as_save|].
  repeat split; vm_compute; reflexivity.
Qed.

(** C2, on the code. A Book is upserted whose [category_id] names no
    Category, on an engine that enforces foreign keys.  [save] raises the
    foreign-key violation; [save_or_update] catches it, does not merge,
    and returns [None] as if nothing had happened, with nothing
    stored. *)
Theorem save_or_update_swallows_foreign_key_violation :
  result (Base.save 0%nat (fresh_world {[ 0%nat := orphan_book ]} with_fiction))
  = Raise (IntegrityError foreign_key_failed)
  ∧ result (Base.save_or_update 0%nat
              (fresh_world {[ 0%nat := orphan_book ]} with_fiction, []))
    = Return VNone
  ∧ calls (Base.save_or_update 0%nat
             (fresh_world {[ 0%nat := orphan_book ]} with_fiction, []))
    = [CAdd 0%nat; CCommit; CClose]
  ∧ stored (Base.save_or_update 0%nat
              (fresh_world {[ 0%nat := orphan_book ]} with_fiction))
    = with_fiction.
Proof. repeat split; vm_compute; reflexivity. Qed.







(** C5. Whatever the session answers to [add], [commit] and [merge],
    [save_or_update] ends by calling [close], once, after everything
    else; on the reference session nothing is left attached. *)
Theorem save_or_update_always_closes :
  (∀ (W : Type) (Sess : AsyncSession W) (self : loc) (w : W) (tr : list call),
     ∃ pre, calls (Base.save_or_update self (w, tr)) = tr ++ pre ++ [CClose]
            ∧ CClose ∉ pre)
  ∧ (∀ (self : loc) (w : world),
       fresh_session (Base.save_or_update self w).2).
Proof.
  split.
  - intros W Sess self w tr.
    destruct (save_or_update_calls self w tr) as (pre & Hcalls & Hpre).
    exists pre. split; [done|].
    repeat (apply elem_of_cons in Hpre as [->|Hpre]; [not_among|]).
    by apply elem_of_nil in Hpre.
  - intros self w. unfold Base.save_or_update, try_finally.
    destruct (try_except _ _ w) as [o w1]. cbn [db_close RefSession].
    unfold ref_close. by destruct o.
Qed.

(** C6, on the code. Neither entity shares a unique key with a stored
    row, and for neither does [save_or_update] behave as [save] does:
    [save] raises, [save_or_update] returns [None].  The first is the
    Book without a Category, on an engine that enforces foreign keys; the
    second a User without a phone number, on the engine of the module. *)
Theorem save_or_update_differs_from_save :
  List.find (conflicts Book (explicitly_set Book (attrs orphan_book)))
            (books with_book) = None
  ∧ result (Base.save 0%nat (fresh_world {[ 0%nat := orphan_book ]} with_book))
    = Raise (IntegrityError foreign_key_failed)
  ∧ result (Base.save_or_update 0%nat
              (fresh_world {[ 0%nat := orphan_book ]} with_book))
    = Return VNone
  ∧ List.find (conflicts User (explicitly_set User (attrs phoneless)))
              (users two_users) = None
  ∧ result (Base.save 0%nat (fresh_world {[ 0%nat := phoneless ]} two_users))
    = Raise (IntegrityError not_null_failed)
  ∧ result (Base.save_or_update 0%nat
              (fresh_world {[ 0%nat := phoneless ]} two_users))
    = Return VNone.
Proof. repeat split; vm_compute; reflexivity. Qed.

(** C7, on the code. The Category of two of the three stored Books is
    deleted.  [delete] returns [True] after one [delete] and one
    [commit], and the Category row is gone; its Books are not.
    [Category.books] is declared without a delete cascade, so the flush
    takes the Book it loads for the relationship off the Category by
    setting its [category_id] to [NULL], and that Book stays in the store
    on any engine.  The other Book goes only where the engine enforces
    the foreign key and so fires its [ondelete] rule; on the engine of
    the module it stays, still naming the Category that is gone. *)
Theorem delete_category_leaves_its_books :
  (λ r : row, (r !! "id", r !! "category_id")) <$> books library
  = [ (Some (VInt 7), Some (VInt 10)); (Some (VInt 8), Some (VInt 10));
      (Some (VInt 9), Some (VInt 11)) ]
  ∧ calls (Base.delete 0%nat (on_module_engine fiction_loaded, []))
    = [CDelete 0%nat; CCommit]
  ∧ result (Base.delete 0%nat (on_module_engine fiction_loaded))
    = Return (VBool true)
  ∧ (λ r : row, r !! "id")
      <$> categorys (stored (Base.delete 0%nat (on_module_engine fiction_loaded)))
    = [Some (VInt 11)]
  ∧ (λ r : row, (r !! "id", r !! "category_id"))
      <$> books (stored (Base.delete 0%nat (on_module_engine fiction_loaded)))
    = [ (Some (VInt 7), Some VNone); (Some (VInt 8), Some (VInt 10));
        (Some (VInt 9), Some (VInt 11)) ]
  ∧ foreign_keys (db fiction_loaded) = true
  ∧ result (Base.delete 0%nat fiction_loaded) = Return (VBool true)
  ∧ (λ r : row, r !! "id") <$> categorys (stored (Base.delete 0%nat fiction_loaded))
    = [Some (VInt 11)]
  ∧ (λ r : row, (r !! "id", r !! "category_id"))
      <$> books (stored (Base.delete 0%nat fiction_loaded))
    = [ (Some (VInt 7), Some VNone); (Some (VInt 9), Some (VInt 11)) ].
Proof. repeat split; vm_compute; reflexivity. Qed.




(** C9, on the code. The tables are [users], [categorys] and [books], one
    per class.  [photo] is no column of [books]: a Book created with a
    photo is stored without it. *)
Theorem books_table_has_no_photo_column :
  __tablename__ <$> all_models = ["users"; "categorys"; "books"]
  ∧ (∀ c : model, c ∈ all_models)
  ∧ (columns Book).*1
    = ["id"; "title"; "author"; "vol"; "amount"; "category_id"]
  ∧ attrs photo_book !! "photo" = Some (VStr "x.jpg")
  ∧ result (Base.save 0%nat (fresh_world {[ 0%nat := photo_book ]} with_fiction))
    = Return VNone
  ∧ (λ r : row, (r !! "title", r !! "photo"))
      <$> books (stored (Base.save 0%nat
                           (fresh_world {[ 0%nat := photo_book ]} with_fiction)))
    = [(Some (VStr "X"), None)].
Proof.
  split; [reflexivity|]. split.
  { intros []; unfold all_models; repeat constructor. }
  repeat split; vm_compute; reflexivity.
Qed.




(** * Further properties of the methods over any session *)

Section AnySessionMore.
Context {W : Type} {Sess : AsyncSession W}.

(** X1. [delete] returns [True] and nothing else, and only after the
    session's [delete] and [commit] both went through.  When the
    session's [delete] fails, [commit] is not attempted and that failure
    is the failure of the method; when [commit] fails, its failure is. *)
Theorem delete_returns_true_or_raises (self : loc) (w : W) (tr : list call) :
  (∀ v, result (Base.delete self w) = Return v →
        v = VBool true
        ∧ calls (Base.delete self (w, tr)) = tr ++ [CDelete self; CCommit]
        ∧ ∃ a w1, db_delete self w = (Return a, w1)
                  ∧ returns (result (db_commit w1)))
  ∧ (∀ e w1, db_delete self w = (Raise e, w1) →
             Base.delete self w = (Raise e, w1)
             ∧ calls (Base.delete self (w, tr)) = tr ++ [CDelete self])
  ∧ (∀ a w1 e w2, db_delete self w = (Return a, w1) →
                  db_commit w1 = (Raise e, w2) →
                  Base.delete self w = (Raise e, w2)).
Proof.
  split; [|split].
  - intros v. unfold_run.
    destruct (db_delete self w) as [[a|e] w1] eqn:Hdel; cbn; [|done].
    destruct (db_commit w1) as [[b|e] w2] eqn:Hcommit; cbn; [|done].
    intros [= <-]. split; [done|]. split; [by rewrite <- app_assoc|].
    exists a, w1. by rewrite Hcommit.
  - intros e w1 Hdel. split.
    + unfold Base.delete, bind. by rewrite Hdel.
    + unfold_run. by rewrite Hdel.
  - intros a w1 e w2 Hdel Hcommit.
    unfold Base.delete, bind. by rewrite Hdel, Hcommit.
Qed.

(** X2. When an assignment of [update] fails, the method fails with it:
    the assignments before it stay made, the ones after it are not
    attempted, and [commit] is not called. *)
Theorem update_stops_at_failed_assignment (self : loc)
    (kw1 kw2 : list (string * pyval)) (k : string) (v : pyval)
    (w w1 w2 : W) (e : pyexc) (tr : list call) :
  Base.update_loop self kw1 w = (Return tt, w1) →
  setattr self k v w1 = (Raise e, w2) →
  Base.update self (kw1 ++ (k, v) :: kw2) w = (Raise e, w2)
  ∧ calls (Base.update self (kw1 ++ (k, v) :: kw2) (w, tr))
    = tr ++ map (λ kv, CSetattr self kv.1 kv.2) kw1 ++ [CSetattr self k v].
Proof.
  revert w tr. induction kw1 as [|[k1 v1] kw1 IH]; intros w tr Hloop Hset.
  - injection Hloop as <-. split.
    + unfold Base.update, bind. cbn [app Base.update_loop]. unfold bind.
      by rewrite Hset.
    + unfold_run. cbn [app Base.update_loop]. unfold_run. by rewrite Hset.
  - cbn [Base.update_loop] in Hloop. unfold bind in Hloop.
    destruct (setattr self k1 v1 w) as [[a|e1] w0] eqn:Hfirst; [|done].
    destruct (IH w0 (tr ++ [CSetattr self k1 v1]) Hloop Hset) as [Hres Hcalls].
    split.
    + revert Hres. unfold Base.update, bind. cbn [app Base.update_loop].
      unfold bind. by rewrite Hfirst.
    + revert Hcalls. unfold_run. cbn [app Base.update_loop map]. unfold_run.
      rewrite Hfirst. cbn [fst snd]. intros ->. by rewrite <- app_assoc.
Qed.

(** X3. No [IntegrityError] of [add] or [commit] ever leaves
    [save_or_update]: on a session whose [merge] and [close] raise none,
    the method raises none. *)
Theorem save_or_update_raises_no_integrity_error (self : loc) (w : W)
    (orig : dbapi_error) :
  (∀ w' orig', result (db_merge self w') ≠ Raise (IntegrityError orig')) →
  (∀ w' orig', result (db_close w') ≠ Raise (IntegrityError orig')) →
  result (Base.save_or_update self w) ≠ Raise (IntegrityError orig).
Proof.
  intros Hmerge Hclose.
  assert (Hfin : ∀ (o : outcome pyval) w',
            (∀ orig', o ≠ Raise (IntegrityError orig')) →
            (match db_close w' with
             | (Return _, w'') => (o, w'')
             | (Raise e, w'') => (Raise e, w'')
             end).1 ≠ Raise (IntegrityError orig)).
  { intros o w' Ho. specialize (Hclose w'). unfold result in Hclose.
    destruct (db_close w') as [[c|e] w'']; cbn in *; [apply Ho | apply Hclose]. }
  unfold Base.save_or_update, try_finally, try_except, bind, ret, result.
  destruct (db_add self w) as [[a|e] w1]; cbn.
  - destruct (db_commit w1) as [[b|e] w2]; cbn; [by apply Hfin|].
    destruct e as [orig'| | | | |]; cbn; try by apply Hfin.
    destruct (isinstance_UniqueViolationError orig'); [|by apply Hfin].
    specialize (Hmerge w2). unfold result in Hmerge.
    destruct (db_merge self w2) as [[m|e] w3]; cbn in *; apply Hfin; [done|].
    intros orig'' [= ->]. by apply (Hmerge orig'').
  - destruct e as [orig'| | | | |]; cbn; try by apply Hfin.
    destruct (isinstance_UniqueViolationError orig'); [|by apply Hfin].
    specialize (Hmerge w1). unfold result in Hmerge.
    destruct (db_merge self w1) as [[m|e] w2]; cbn in *; apply Hfin; [done|].
    intros orig'' [= ->]. by apply (Hmerge orig'').
Qed.

(** X4. A failure of [close] is the failure of [save_or_update],
    whatever the attempt before it had come to, a committed create
    included: if [close] raises in the state the [try] block has left,
    that is what the method raises. *)
Theorem save_or_update_close_failure_wins (self : loc) (w w1 w2 : W)
    (o : outcome pyval) (e : pyexc) :
  save_or_update_attempt self w = (o, w1) →
  db_close w1 = (Raise e, w2) →
  Base.save_or_update self w = (Raise e, w2).
Proof.
  intros Htry Hclose.
  change (Base.save_or_update self w)
    with (try_finally (save_or_update_attempt self) db_close w).
  unfold try_finally. by rewrite Htry, Hclose.
Qed.

(** X5. Unless [save] raises an [IntegrityError], [save_or_update] is
    [save] followed by [close]. *)
Theorem save_or_update_is_save_then_close (self : loc) (w : W) :
  (∀ orig, result (Base.save self w) ≠ Raise (IntegrityError orig)) →
  Base.save_or_update self w = try_finally (Base.save self) db_close w.
Proof.
  unfold Base.save_or_update, Base.save, try_finally, try_except, bind, result.
  destruct (db_add self w) as [[a|e] w1]; cbn.
  - destruct (db_commit w1) as [[b|e] w2]; cbn; [done|].
    intros Hne. destruct e as [orig| | | | |]; try done. by destruct (Hne orig).
  - intros Hne. destruct e as [orig| | | | |]; try done. by destruct (Hne orig).
Qed.

(** X6. The calls of [save_or_update] are [add], then [commit] if [add]
    went through, then [merge] if one of the two raised an
    [IntegrityError] carrying a [UniqueViolationError], then [close]:
    [merge] is attempted in that case and in no other, and never is there
    a rollback, a second [commit] or a [commit] after [merge]. *)
Theorem save_or_update_merges_on_unique_violation_only (self : loc) (w : W) :
  calls (Base.save_or_update self (w, []))
  ∈ [ [CAdd self; CClose]; [CAdd self; CMerge self; CClose];
      [CAdd self; CCommit; CClose]; [CAdd self; CCommit; CMerge self; CClose] ]
  ∧ (CMerge self ∈ calls (Base.save_or_update self (w, []))
     ↔ ∃ orig, isinstance_UniqueViolationError orig = true
               ∧ (result (db_add self w) = Raise (IntegrityError orig)
                  ∨ ∃ a w1, db_add self w = (Return a, w1)
                            ∧ result (db_commit w1) = Raise (IntegrityError orig))).
Proof.
  unfold_run.
  destruct (db_add self w) as [[a|e] w1] eqn:Hadd; cbn.
  - destruct (db_commit w1) as [[b|e] w2] eqn:Hcommit; cbn.
    + destruct (db_close w2) as [[c|e] w3]; cbn;
        (split; [set_unfold; tauto|]); split;
        try (intros Hin; exfalso; revert Hin; not_among);
        intros (orig & _ & [?|(a' & w1' & [= <- <-] & Hc)]); try done;
        by rewrite Hcommit in Hc.
    + destruct e as [orig| | | | |]; cbn;
        [| (destruct (db_close w2) as [[c|e] w3]; cbn;
            (split; [set_unfold; tauto|]); split;
            try (intros Hin; exfalso; revert Hin; not_among);
            intros (orig' & Hu & [?|(a' & w1' & [= <- <-] & Hc)]); try done;
            by rewrite Hcommit in Hc) ..].
      destruct (isinstance_UniqueViolationError orig) eqn:Horig; cbn.
      * destruct (db_merge self w2) as [[m|e] w3]; cbn;
          destruct (db_close w3) as [[c|e'] w4]; cbn;
          (split; [set_unfold; tauto|]); split;
          try (intros _; exists orig; split; [done|]; right;
               exists a, w1; by rewrite Hcommit);
          intros _; set_unfold; tauto.
      * destruct (db_close w2) as [[c|e] w3]; cbn;
          (split; [set_unfold; tauto|]); split;
          try (intros Hin; exfalso; revert Hin; not_among);
          intros (orig' & Hu & [?|(a' & w1' & [= <- <-] & Hc)]); try done;
          rewrite Hcommit in Hc; injection Hc as <-; congruence.
  - destruct e as [orig| | | | |]; cbn;
      [| (destruct (db_close w1) as [[c|e] w2]; cbn;
          (split; [set_unfold; tauto|]); split;
          try (intros Hin; exfalso; revert Hin; not_among);
          intros (orig' & Hu & [?|(a' & w1' & ? & _)]); done) ..].
    destruct (isinstance_UniqueViolationError orig) eqn:Horig; cbn.
    + destruct (db_merge self w1) as [[m|e] w2]; cbn;
        destruct (db_close w2) as [[c|e'] w3]; cbn;
        (split; [set_unfold; tauto|]); split;
        try (intros _; exists orig; split; [done|]; by left);
        intros _; set_unfold; tauto.
    + destruct (db_close w1) as [[c|e] w2]; cbn;
        (split; [set_unfold; tauto|]); split;
        try (intros Hin; exfalso; revert Hin; not_among);
        intros (orig' & Hu & [[= <-]|(a' & w1' & ? & _)]); congruence.
Qed.

End AnySessionMore.

(** X1 at sample inputs: a Category that is stored, a store that cannot
    be reached, and a Category deleted on a session that also holds a
    pending User who cannot be stored. *)
Lemma delete_returns_true_or_raises_witness :
  (VBool true = VBool true
   ∧ calls (Base.delete 0%nat (fiction_loaded, [])) = [] ++ [CDelete 0%nat; CCommit]
   ∧ ∃ a w1, db_delete 0%nat fiction_loaded = (Return a, w1)
             ∧ returns (result (db_commit w1)))
  ∧ (Base.delete 0%nat tt = (Raise ConnectionError, tt)
     ∧ calls (Base.delete 0%nat (tt, [])) = [] ++ [CDelete 0%nat])
  ∧ Base.delete 0%nat fiction_and_phoneless
    = (Raise (IntegrityError not_null_failed),
       (db_commit (db_delete 0%nat fiction_and_phoneless).2).2).
Proof.
  split; [|split].
  - apply (proj1 (delete_returns_true_or_raises 0%nat fiction_loaded [])).
    vm_compute. reflexivity.
  - apply (proj1 (proj2 (delete_returns_true_or_raises 0%nat tt []))).
    reflexivity.
  - apply (proj2 (proj2 (delete_returns_true_or_raises
                           0%nat fiction_and_phoneless []))
             VNone (db_delete 0%nat fiction_and_phoneless).2).
    + vm_compute. reflexivity.
    + vm_compute. reflexivity.
Defined.

(** X2 at a sample input: the first of two assignments fails. *)
Lemma update_stops_at_failed_assignment_witness :
  Base.update 0%nat ([] ++ ("lang", VStr "uz") :: [("fullname", VStr "Ali")]) tt
  = (Raise ConnectionError, tt)
  ∧ calls (Base.update 0%nat
             ([] ++ ("lang", VStr "uz") :: [("fullname", VStr "Ali")]) (tt, []))
    = [] ++ map (λ kv, CSetattr 0%nat kv.1 kv.2) [] ++ [CSetattr 0%nat "lang" (VStr "uz")].
Proof.
  apply (update_stops_at_failed_assignment
           0%nat [] [("fullname", VStr "Ali")] "lang" (VStr "uz") tt tt tt
           ConnectionError []).
  - reflexivity.
  - reflexivity.
Defined.

Lemma ref_merge_raises_no_integrity_error (self : loc) (w : world)
    (orig : dbapi_error) :
  result (db_merge self w) ≠ Raise (IntegrityError orig).
Proof.
  unfold result. cbn [db_merge RefSession]. unfold ref_merge.
  destruct (heap w !! self) as [o|]; [|done].
  by destruct (if decide _ then _ else _).
Qed.

Lemma ref_close_raises_no_integrity_error (w : world) (orig : dbapi_error) :
  result (db_close w) ≠ Raise (IntegrityError orig).
Proof. done. Qed.

(** X3 at a sample input: the Book whose Category is missing. *)
Lemma save_or_update_raises_no_integrity_error_witness :
  result (Base.save_or_update 0%nat (fresh_world {[ 0%nat := orphan_book ]} with_fiction))
  ≠ Raise (IntegrityError foreign_key_failed).
Proof.
  apply (save_or_update_raises_no_integrity_error
           0%nat (fresh_world {[ 0%nat := orphan_book ]} with_fiction)
           foreign_key_failed).
  - intros w' orig'. apply ref_merge_raises_no_integrity_error.
  - intros w' orig'. apply ref_close_raises_no_integrity_error.
Defined.

(** X4 at a sample input: a session whose connection drops at [close],
    after [add] and [commit] went through. *)
Lemma save_or_update_close_failure_wins_witness :
  Base.save_or_update 0%nat 0%nat = (Raise ConnectionError, 2%nat).
Proof.
  apply (save_or_update_close_failure_wins
           0%nat 0%nat 2%nat 2%nat (Return VNone) ConnectionError).
  - reflexivity.
  - reflexivity.
Defined.

(** X5 at a sample input: a new User into an empty store. *)
Lemma save_or_update_is_save_then_close_witness :
  Base.save_or_update 0%nat (fresh_world {[ 0%nat := jane ]} create_all)
  = try_finally (Base.save 0%nat) db_close (fresh_world {[ 0%nat := jane ]} create_all).
Proof.
  apply (save_or_update_is_save_then_close
           0%nat (fresh_world {[ 0%nat := jane ]} create_all)).
  intros orig. vm_compute. discriminate.
Defined.

(** * Further properties of the store and of the reference session *)


Lemma id_column (c : model) :
  In ("id", with_primary_key (mapped_column TInteger false)) (columns c).
Proof. destruct c; cbn; auto. Qed.

(** A row that passed the constraints shares its identity with no row of
    the table it was checked against. *)
Lemma check_row_identity_unused (d : database) (c : model) (t : list row)
    (r : row) (i : pyval) :
  check_row d c t r = None → r !! "id" = Some i → i ≠ VNone →
  ∀ x, In x t → has_id i x = false.
Proof.
  unfold check_row. intros Hcheck Hid Hi x Hx.
  destruct (not_null_ok c r); [|done]. cbn in Hcheck.
  destruct (unique_ok c t r) eqn:Huniq; [|done].
  unfold unique_ok in Huniq. rewrite forallb_forall in Huniq.
  specialize (Huniq _ (id_column c)). cbn in Huniq.
  apply negb_true_iff in Huniq.
  apply not_true_is_false. intros Hhas. apply bool_decide_eq_true in Hhas.
  assert (Hex : existsb (same_at "id" r) t = true); [|congruence].
  apply existsb_exists. exists x. split; [done|].
  unfold same_at, is_null. rewrite Hid, Hhas. cbn.
  rewrite bool_decide_false by done. by rewrite bool_decide_true.
Qed.



(** X9. Deleting a loaded User or Book returns [True], whether or not
    a row was there.  The rows under its identity are gone from the table
    of its class; every other row and every other table stay as they
    were: the Category of a deleted Book is not touched. *)
Theorem delete_removes_only_its_row (self : loc) (o : pyobj) (i : pyval)
    (w : world) :
  holds_only w self → heap w !! self = Some o → cls o ≠ Category →
  key o = Some i →
  result (Base.delete self w) = Return (VBool true)
  ∧ table (stored (Base.delete self w)) (cls o)
    = List.filter (λ x, negb (has_id i x)) (table (db w) (cls o))
  ∧ (∀ c, c ≠ cls o → table (stored (Base.delete self w)) c = table (db w) c).
Proof.
  intros Hholds Hself Hcls Hkey.
  rewrite (delete_holds_only self o i w Hholds Hself Hkey).
  rewrite (disassociate_plain _ _ _ Hcls), (delete_row_plain _ _ _ Hcls).
  unfold result, stored. cbn [fst snd db]. split; [done|]. split.
  - apply table_set_table.
  - intros c Hc. by apply table_set_table_ne.
Qed.





















(** X9 at a sample input: Bob is deleted. *)
Lemma delete_removes_only_its_row_witness :
  result (Base.delete 0%nat bob_loaded) = Return (VBool true)
  ∧ table (stored (Base.delete 0%nat bob_loaded)) (cls bob)
    = List.filter (λ x, negb (has_id (VInt 2) x)) (table (db bob_loaded) (cls bob))
  ∧ (∀ c, c ≠ cls bob →
          table (stored (Base.delete 0%nat bob_loaded)) c = table (db bob_loaded) c).
Proof.
  apply (delete_removes_only_its_row 0%nat bob (VInt 2) bob_loaded).
  - repeat split.
  - vm_compute. reflexivity.
  - discriminate.
  - reflexivity.
Defined.


Lemma columns_User :
  columns User
  = [ ("id", with_primary_key (mapped_column TInteger false));
      ("chat_id", with_unique (mapped_column (TString (Some 30%nat)) false));
      ("fullname", mapped_column (TString None) true);
      ("lang", mapped_column (TString (Some 20%nat)) false);
      ("created_at", with_default UtcNow (mapped_column TDateTime false));
      ("updated_at", with_onupdate UtcNow
                       (with_default UtcNow (mapped_column TDateTime false)));
      ("is_admin", with_default (Scalar (VBool false)) (mapped_column TBoolean false));
      ("phone_number", mapped_column (TString (Some 20%nat)) false) ].
Proof. reflexivity. Qed.

Lemma columns_Category :
  columns Category
  = [ ("id", with_primary_key (mapped_column TInteger false));
      ("name", mapped_column (TString (Some 55%nat)) false) ].
Proof. reflexivity. Qed.



















(** An [update] that leaves the instance with nothing its row does not
    hold writes nothing. *)
Lemma update_held_values (self : loc) (o : pyobj) (k : pyval)
    (old : row) (kwargs : list (string * pyval)) (w : world) :
  holds_only w self → heap w !! self = Some o → key o = Some k →
  forallb (λ kv, settable (cls o) kv.1 kv.2) kwargs = true →
  List.find (has_id k) (table (db w) (cls o)) = Some old →
  (∀ name x, is_Some (colmap (cls o) !! name) →
             attrs (assign kwargs o) !! name = Some x → old !! name = Some x) →
  result (Base.update self kwargs w) = Return VNone
  ∧ stored (Base.update self kwargs w) = db w.
Proof.
  intros Hholds Hself Hkey Hall Hfind Hsame. unfold result, stored.
  rewrite (update_holds_only_eq self o k kwargs w Hholds Hself Hkey Hall).
  unfold update_row. cbn [assign cls] in *. rewrite Hfind.
  rewrite decide_True; [done|].
  apply map_subseteq_union, map_subseteq_spec. intros name x.
  rewrite column_state_lookup.
  destruct (colmap (cls o) !! name) eqn:Hcol; [|done]. by apply Hsame.
Qed.

Lemma save_attached (self : loc) (w : world) :
  attached w self = true → Base.save self w = Base.update self [] w.
Proof.
  intros Hatt. unfold Base.save, Base.update, bind. cbn [db_add db_commit RefSession].
  unfold ref_add. by rewrite Hatt.
Qed.

Lemma find_app_last {A} (p : A → bool) (l : list A) (y : A) :
  (∀ x, In x l → p x = false) → p y = true → List.find p (l ++ [y]) = Some y.
Proof.
  intros Hl Hy. induction l as [|x l IH]; cbn.
  - by rewrite Hy.
  - rewrite (Hl x (or_introl eq_refl)). apply IH. intros z Hz. apply Hl. by right.
Qed.

(** X17. Saving an instance a second time, right after the [save] that
    created it, returns [None] again and writes nothing: the store holds
    one row for it, the one the first [save] inserted. *)
Theorem save_again_writes_nothing (self : loc) (o : pyobj) (w : world) :
  fresh_session w → heap w !! self = Some o → key o = None →
  returns (result (Base.save self w)) →
  result (Base.save self (Base.save self w).2) = Return VNone
  ∧ stored (Base.save self (Base.save self w).2) = stored (Base.save self w).
Proof.
  intros Hfresh Hself Hkey. unfold result at 1, stored at 2.
  rewrite (save_fresh self o w Hfresh Hself Hkey).
  destruct (insert_row _ _ _ _) as [e|[d r]] eqn:Hins; cbn [fst snd]; [done|].
  intros _.
  destruct (insert_row_spec _ _ _ _ _ _ Hins) as (-> & (i & Hi & Hnone) & _ & _).
  unfold insert_row in Hins.
  destruct (check_row _ _ _ _) eqn:Hcheck; [done|]. injection Hins as _ Hr.
  rewrite Hr in Hcheck.
  pose proof (check_row_identity_unused _ _ _ _ i Hcheck Hi Hnone) as Hunused.
  set (w1 := World (alter (persist r) self (heap w)) [] [self] []
                   (set_table (db w) (cls o) (table (db w) (cls o) ++ [r]))
                   (utcnow w)).
  assert (Hholds : holds_only w1 self) by done.
  assert (Hself1 : heap w1 !! self = Some (persist r o)).
  { unfold w1. cbn [heap]. by rewrite lookup_alter_eq, Hself. }
  rewrite save_attached
    by (apply bool_decide_eq_true, list_elem_of_singleton, eq_refl).
  apply (update_held_values self (persist r o) i r [] w1 Hholds Hself1 Hi eq_refl).
  - unfold w1. cbn [db cls persist expire]. rewrite table_set_table.
    apply find_app_last; [done|]. unfold has_id. by rewrite bool_decide_true.
  - intros name x [col Hcol] Hx. exfalso.
    cbn [assign persist expire attrs foldl cls] in Hx.
    apply map_lookup_filter_Some in Hx as [_ Hno].
    apply Hno. by exists col.
Qed.

(** X17 at a sample input: a new User, saved twice. *)
Lemma save_again_writes_nothing_witness :
  result (Base.save 0%nat (Base.save 0%nat (fresh_world {[ 0%nat := ali ]} two_users)).2)
  = Return VNone
  ∧ stored (Base.save 0%nat
              (Base.save 0%nat (fresh_world {[ 0%nat := ali ]} two_users)).2)
    = stored (Base.save 0%nat (fresh_world {[ 0%nat := ali ]} two_users)).
Proof.
  apply (save_again_writes_nothing 0%nat ali
           (fresh_world {[ 0%nat := ali ]} two_users)).
  - repeat split.
  - vm_compute. reflexivity.
  - reflexivity.
  - vm_compute. exact I.
Defined.






(** * The class bodies *)

Ltac among :=
  repeat (apply elem_of_cons; first [left; reflexivity | right]).

Lemma lower_char_idemp (c : ascii) : lower_char (lower_char c) = lower_char c.
Proof.
  unfold lower_char.
  destruct ((65 <=? nat_of_ascii c)%nat && (nat_of_ascii c <=? 90)%nat) eqn:Hup;
    [|by rewrite Hup].
  apply andb_true_iff in Hup as [Hlo Hhi].
  apply Nat.leb_le in Hlo. apply Nat.leb_le in Hhi.
  rewrite nat_ascii_embedding by lia.
  replace ((65 <=? nat_of_ascii c + 32)%nat && (nat_of_ascii c + 32 <=? 90)%nat)
    with false; [done|].
  symmetry. apply andb_false_iff. right. apply Nat.leb_gt. lia.
Qed.

Lemma lower_app (s1 s2 : string) : lower (s1 +:+ s2) = lower s1 +:+ lower s2.
Proof.
  induction s1 as [|c s1 IH]; [done|].
  change (lower (String c (s1 +:+ s2))
          = String (lower_char c) (lower s1 +:+ lower s2)).
  cbn [lower]. f_equal. exact IH.
Qed.

Lemma lower_idemp (s : string) : lower (lower s) = lower s.
Proof.
  induction s as [|c s IH]; [done|]. cbn. by rewrite lower_char_idemp, IH.
Qed.

(** X21. Table names and classes determine each other: a name is the
    table name of a class exactly if looking the name up among the
    classes of the module gives that class, so no two classes share a
    table; and a table name is in lower case whatever the case of the
    class name. *)
Theorem tablename_identifies_class (c : model) (name : string) :
  (model_of_table name = Some c ↔ name = __tablename__ c)
  ∧ lower (__tablename__ c) = __tablename__ c.
Proof.
  split; [split|].
  - unfold model_of_table. intros Hfind. apply find_some in Hfind as [_ Hname].
    by apply bool_decide_eq_true in Hname.
  - intros ->. by destruct c.
  - unfold __tablename__. by rewrite lower_app, lower_idemp.
Qed.

(** X22. Every foreign key a class body declares resolves inside the
    module: the table it names is the table of one of the classes, and
    the column it names is the primary key of that class, of the type of
    the referring column. *)
Theorem foreign_keys_resolve (c : model) (name : string) (col : column)
    (fk : foreign_key) :
  (name, col) ∈ columns c → col_foreign_key col = Some fk →
  ∃ target tcol,
    fk_table fk = __tablename__ target
    ∧ model_of_table (fk_table fk) = Some target
    ∧ colmap target !! fk_column fk = Some tcol
    ∧ col_primary_key tcol = true
    ∧ col_type tcol = col_type col.
Proof.
  intros Hin Hfk.
  destruct c; [rewrite columns_User in Hin | rewrite columns_Category in Hin
              | rewrite columns_Book in Hin];
    repeat (apply elem_of_cons in Hin as [Hin|Hin];
            [injection Hin as -> ->; try discriminate Hfk|]);
    try (by apply elem_of_nil in Hin).
  injection Hfk as <-.
  by exists Category, (with_primary_key (mapped_column TInteger false)).
Qed.

(** X23. The two ends of every relationship name each other: where a
    class body declares a relationship to a class under
    [back_populates], the body of that class declares, under that very
    name, a relationship back to the first class that is populated from
    the first one's attribute. *)
Theorem relationships_are_mirrored (c : model) (name target back : string) :
  (name, Relationship target back) ∈ class_body c →
  ∃ c', __name__ c' = target
        ∧ (back, Relationship (__name__ c) name) ∈ class_body c'.
Proof.
  intros Hin.
  destruct c; cbn [class_body] in Hin;
    repeat (apply elem_of_cons in Hin as [Hin|Hin]; [try discriminate Hin|]);
    try (by apply elem_of_nil in Hin);
    injection Hin as -> -> ->.
  - exists Book. split; [done|]. cbn [class_body __name__].
    among.
  - exists Category. split; [done|]. cbn [class_body __name__].
    among.
Qed.

(** X22 at a sample input: the foreign key of [Book.category_id]. *)
Lemma foreign_keys_resolve_witness :
  ∃ target tcol,
    fk_table (ForeignKey "categorys" "id" Cascade) = __tablename__ target
    ∧ model_of_table (fk_table (ForeignKey "categorys" "id" Cascade)) = Some target
    ∧ colmap target !! fk_column (ForeignKey "categorys" "id" Cascade) = Some tcol
    ∧ col_primary_key tcol = true
    ∧ col_type tcol
      = col_type (with_foreign_key (ForeignKey "categorys" "id" Cascade)
                    (mapped_column TInteger true)).
Proof.
  apply (foreign_keys_resolve Book "category_id"
           (with_foreign_key (ForeignKey "categorys" "id" Cascade)
              (mapped_column TInteger true))
           (ForeignKey "categorys" "id" Cascade)).
  - rewrite columns_Book. among.
  - reflexivity.
Defined.

(** X23 at a sample input: [Category.books]. *)
Lemma relationships_are_mirrored_witness :
  ∃ c', __name__ c' = "Book"
        ∧ ("category", Relationship (__name__ Category) "books") ∈ class_body c'.
Proof.
  apply (relationships_are_mirrored Category "books" "Book" "category").
  cbn [class_body]. among.
Defined.
